(** * fire-enrich: the virtual table and the performance-monitoring hook

    A shallow embedding of [components/virtual-table.tsx] (the row
    presentation engine: sorting, selection, status derivation, the
    confidence badge, auto-scroll) and of the [usePerformanceMonitoring]
    hook (metrics, alerts, status), followed by the properties of the
    specification that concern them.

    JavaScript numbers are IEEE-754 binary64 values: they are modelled by
    Rocq's primitive floats, which are the same format with the same
    rounding, so that every arithmetic expression of the source is
    evaluated exactly as the engine evaluates it. *)

From Stdlib Require Import ZArith Floats Uint63 Bool Lia.
From Stdlib Require Import Sorting.Sorted.
From stdpp Require Import gmap strings list sets sorting pretty.

Local Open Scope Z_scope.

(** ** The host language: numbers *)

Module JS.

(** An integer of magnitude below 2^63 as a number (exact below 2^53). *)
Definition ofZ (n : Z) : float :=
  match n with
  | Z0 => 0%float
  | Zpos _ => PrimFloat.of_uint63 (Uint63.of_Z n)
  | Zneg p => PrimFloat.opp (PrimFloat.of_uint63 (Uint63.of_Z (Zpos p)))
  end.

(** [Math.round]: the integral number closest to [x], ties towards
    +Infinity; NaN, the infinities, the zeros and integral values are
    returned unchanged, and a value in [-0.5, 0) gives -0.  A finite
    [x] is [v * 2^e] with [v] an integer, so that for [e < 0]
    floor (x + 1/2) = floor ((2 v + 2^-e) / 2^(1-e)), computed in [Z]. *)
Definition Math_round (x : float) : float :=
  match Prim2SF x with
  | S754_finite s m e =>
      if 0 <=? e then x
      else
        let v := if s then Zneg m else Zpos m in
        let n := (2 * v + 2 ^ (- e)) / 2 ^ (1 - e) in
        if n =? 0 then (if s then (-0)%float else 0%float) else ofZ n
  | _ => x
  end.

(** [x < y], [x > y] and [x <= y] on numbers (all false when an operand
    is NaN). *)
Definition lt (x y : float) : bool := PrimFloat.ltb x y.
Definition gt (x y : float) : bool := PrimFloat.ltb y x.
Definition le (x y : float) : bool := PrimFloat.leb x y.

(** [Number.isNaN]. *)
Definition isNaN (x : float) : bool := negb (PrimFloat.eqb x x).

(** [ToBoolean] on a number: false for +0, -0 and NaN only. *)
Definition truthyNumber (x : float) : bool :=
  negb (PrimFloat.eqb x 0%float) && negb (isNaN x).

(** ** The host language: values, coercions and the relational operators *)

(** The values an enrichment or a cell can hold: a scalar (number, string),
    a boolean, a list of strings, or nothing. *)
Inductive Value :=
| VUndefined
| VNull
| VBool (b : bool)
| VNum (x : float)
| VStr (s : string)
| VArr (l : list string).

(** [ToBoolean]. *)
Definition truthy (v : Value) : bool :=
  match v with
  | VUndefined | VNull => false
  | VBool b => b
  | VNum x => truthyNumber x
  | VStr s => negb (String.eqb s "")
  | VArr _ => true
  end.

(** [a || b]. *)
Definition or (a b : Value) : Value := if truthy a then a else b.

(** [ToPrimitive]: an array becomes the string of its elements joined by
    commas; every other value here is primitive already. *)
Definition ToPrimitive (v : Value) : Value :=
  match v with
  | VArr l => VStr (String.concat "," l)
  | _ => v
  end.

Section Coercions.

(** The host's StringToNumber (the numeric-literal grammar with its
    correctly rounded result) is taken as given. *)
Variable StringToNumber : string -> float.

(** [ToNumber] on a primitive value. *)
Definition ToNumber (v : Value) : float :=
  match v with
  | VUndefined => PrimFloat.nan
  | VNull => 0%float
  | VBool b => if b then 1%float else 0%float
  | VNum x => x
  | VStr s => StringToNumber s
  | VArr l => StringToNumber (String.concat "," l)
  end.

(** [a < b]: two strings are compared by code units, anything else as
    numbers; false when the comparison is undefined (a NaN operand).
    Strings are sequences of 8-bit characters here, that is, of code units
    below 256, and [String.ltb] orders them by their codes. *)
Definition IsLessThan (a b : Value) : bool :=
  match ToPrimitive a, ToPrimitive b with
  | VStr s, VStr t => String.ltb s t
  | pa, pb => lt (ToNumber pa) (ToNumber pb)
  end.

End Coercions.

(** ** The host language: arrays *)

(** [l.indexOf(x)] with [same] the strict equality of the elements: the
    first index holding [x], or -1. *)
Fixpoint indexOf_from {A} (same : A -> A -> bool) (l : list A) (x : A) (i : Z) : Z :=
  match l with
  | [] => -1
  | y :: l' => if same y x then i else indexOf_from same l' x (i + 1)
  end.

Definition indexOf {A} (same : A -> A -> bool) (l : list A) (x : A) : Z :=
  indexOf_from same l x 0.

(** [l.includes(s)] on an array of strings. *)
Fixpoint includes (l : list string) (s : string) : bool :=
  match l with
  | [] => false
  | t :: l' => String.eqb t s || includes l' s
  end.

(** [Array.prototype.sort] with a comparator returning a negative, zero or
    positive integer.  The language requires the sort to be stable, and for a
    consistent comparator that fixes the result: it is the order the stable
    insertion sort [stableSort] produces, in which an element moves past
    exactly the elements it compares strictly greater than.  For any other
    comparator the order is the engine's. *)
Fixpoint insert {A} (cmp : A -> A -> Z) (x : A) (l : list A) : list A :=
  match l with
  | [] => [x]
  | y :: l' => if cmp x y <=? 0 then x :: l else y :: insert cmp x l'
  end.

Fixpoint stableSort {A} (cmp : A -> A -> Z) (l : list A) : list A :=
  match l with
  | [] => []
  | x :: l' => insert cmp x (stableSort cmp l')
  end.

(** The engine is V8 (Node, Chrome).  Its sort takes an array of fewer than
    64 elements as a single run: [CountAndMakeRun] finds the run the array
    begins with, a strictly descending one (each element compares below the
    one before it) being reversed in place, and [BinaryInsertionSort] then
    puts every further element where a binary search of the sorted part
    sends it.  [runTail] is the loop that extends the run after its second
    element: it gives the elements that continue the run and the elements
    left over. *)
Fixpoint runTail {A} (cmp : A -> A -> Z) (isDescending : bool) (previousElement : A)
  (l : list A) : list A * list A :=
  match l with
  | [] => ([], [])
  | currentElement :: l' =>
      let order := cmp currentElement previousElement in
      if (if isDescending then 0 <=? order else order <? 0) then ([], l)
      else
        let (run, rest) := runTail cmp isDescending currentElement l' in
        (currentElement :: run, rest)
  end.

Definition countAndMakeRun {A} (cmp : A -> A -> Z) (l : list A) : list A * list A :=
  match l with
  | [] => ([], [])
  | [x] => ([x], [])
  | elementHigh :: elementLow :: l' =>
      let isDescending := cmp elementLow elementHigh <? 0 in
      let (run, rest) := runTail cmp isDescending elementLow l' in
      let run := elementHigh :: elementLow :: run in
      (if isDescending then reverse run else run, rest)
  end.

(** The binary search: [left] and [right] close in on the place of [pivot]
    in the sorted part [a]; the interval shrinks at every step, so [fuel]
    steps are enough when it is no longer than [fuel]. *)
Fixpoint insertionPoint {A} (fuel : nat) (cmp : A -> A -> Z) (pivot : A) (a : list A)
  (left right : nat) : nat :=
  match fuel with
  | O => left
  | S fuel' =>
      if (left <? right)%nat then
        let mid := (left + (right - left) / 2)%nat in
        match a !! mid with
        | Some y =>
            if cmp pivot y <? 0 then insertionPoint fuel' cmp pivot a left mid
            else insertionPoint fuel' cmp pivot a (mid + 1)%nat right
        | None => left
        end
      else left
  end.

Definition binaryInsert {A} (cmp : A -> A -> Z) (a : list A) (pivot : A) : list A :=
  let left := insertionPoint (length a) cmp pivot a 0 (length a) in
  take left a ++ pivot :: drop left a.

(** [l.sort(cmp)] on the engine, for an array of fewer than 64 elements.
    (A longer array is cut into several such runs, which are merged; with a
    consistent comparator the outcome is the same, the stable order being
    unique.) *)
Definition sort {A} (cmp : A -> A -> Z) (l : list A) : list A :=
  let (run, rest) := countAndMakeRun cmp l in
  foldl (binaryInsert cmp) run rest.

(** [x] is not after [y]: the comparator does not ask for [y] first. *)
Definition notAfter {A} (cmp : A -> A -> Z) (x y : A) : Prop := cmp x y <= 0.

Definition transitiveOn {A} (cmp : A -> A -> Z) (l : list A) : Prop :=
  forall a b c, a ∈ l -> b ∈ l -> c ∈ l ->
    notAfter cmp a b -> notAfter cmp b c -> notAfter cmp a c.

(** The comparator is consistent on the elements of [l]: "not after" is
    transitive there.  (It is total for every comparator that gives
    opposite signs to the two orders of a pair.)  This is the condition
    under which the language fixes the result of the sort, and [sort] and
    [stableSort] agree. *)
Definition consistent {A} (cmp : A -> A -> Z) (l : list A) : bool :=
  forallb (fun x => forallb (fun y => forallb (fun z =>
    implb ((cmp x y <=? 0) && (cmp y z <=? 0)) (cmp x z <=? 0)) l) l) l.

End JS.

(** ** components/virtual-table.tsx *)

Module VirtualTable.

Import JS.

(** A row of the uploaded sheet: a JavaScript object, so it has an identity
    ([ref], what [===] and [indexOf] compare) besides its cells, which are
    listed in the object's own property order. *)
Record CSVRow := { ref : nat; cells : list (string * string) }.

Definition same_row (a b : CSVRow) : bool := Nat.eqb (ref a) (ref b).

(** Modelled from the spec: the declarations of [EnrichmentField],
    [EnrichmentResult] and [RowEnrichmentResult] ('@/lib/types') are not among
    the sources; the fields below are the ones the component reads, typed as
    the specification's data model describes them. *)
Record EnrichmentField := { name : string; displayName : string }.

Record EnrichmentResult := { value : Value; confidence : option float }.

Record RowEnrichmentResult := {
  status : option string;
  enrichments : gmap string EnrichmentResult
}.

Inductive Direction := asc | desc.

Record SortConfig := { key : string; direction : Direction }.

(** [row[column]] and [Object.values(row)[0]]. *)
Fixpoint property (cs : list (string * string)) (k : string) : Value :=
  match cs with
  | [] => VUndefined
  | (k', v) :: cs' => if String.eqb k' k then VStr v else property cs' k
  end.

Definition firstValue (a : CSVRow) : Value :=
  match cells a with
  | [] => VUndefined
  | (_, v) :: _ => VStr v
  end.

(** [emailColumn ? row[emailColumn] : Object.values(row)[0]] *)
Definition emailValue (emailColumn : option string) (a : CSVRow) : Value :=
  match emailColumn with
  | Some c => if String.eqb c "" then firstValue a else property (cells a) c
  | None => firstValue a
  end.

(** [result?.enrichments[key]?.value] *)
Definition enrichmentValue (result : option RowEnrichmentResult) (k : string) : Value :=
  match result with
  | None => VUndefined
  | Some r =>
      match enrichments r !! k with
      | None => VUndefined
      | Some e => value e
      end
  end.

Section Component.

Variable StringToNumber : string -> float.

Variable rows : list CSVRow.
Variable results : gmap Z RowEnrichmentResult.
Variable emailColumn : option string.

Definition rowIndexOf (a : CSVRow) : Z := indexOf same_row rows a.

(** The value a row is sorted by. *)
Definition sortValue (cfg : SortConfig) (a : CSVRow) : Value :=
  if String.eqb (key cfg) "email" then emailValue emailColumn a
  else or (enrichmentValue (results !! rowIndexOf a) (key cfg)) (VStr "").

(** The comparator handed to [sort]. *)
Definition compareRows (cfg : SortConfig) (a b : CSVRow) : Z :=
  let aValue := sortValue cfg a in
  let bValue := sortValue cfg b in
  if IsLessThan StringToNumber aValue bValue then
    match direction cfg with asc => -1 | desc => 1 end
  else if IsLessThan StringToNumber bValue aValue then
    match direction cfg with asc => 1 | desc => -1 end
  else 0.

(** [sortedData]: the rows themselves without a sort configuration, a
    sorted copy otherwise. *)
Definition sortedData (sortConfig : option SortConfig) : list CSVRow :=
  match sortConfig with
  | None => rows
  | Some cfg => sort (compareRows cfg) rows
  end.

(** The original indices of the rows in display order. *)
Definition displayOrder (sortConfig : option SortConfig) : list Z :=
  rowIndexOf <$> sortedData sortConfig.

(** [getRowStatus] *)
Definition getRowStatus (currentProcessingRow rowIndex : Z) : string :=
  match results !! rowIndex with
  | None => if currentProcessingRow =? rowIndex then "processing" else "pending"
  | Some result =>
      match status result with
      | Some s => if String.eqb s "" then "completed" else s
      | None => "completed"
      end
  end.

End Component.

(** [handleSort]: the same key toggles the direction, a new key starts
    ascending. *)
Definition handleSort (k : string) (current : option SortConfig) : option SortConfig :=
  match current with
  | Some c =>
      if String.eqb (key c) k then
        Some {| key := k; direction := match direction c with asc => desc | desc => asc end |}
      else Some {| key := k; direction := asc |}
  | None => Some {| key := k; direction := asc |}
  end.

(** [handleRowSelect] *)
Definition handleRowSelect (rowIndex : Z) (selected : bool) (prev : gset Z) : gset Z :=
  if selected then prev ∪ {[rowIndex]} else prev ∖ {[rowIndex]}.

(** [rows.map((_, index) => index)] *)
Definition allIndices (rows : list CSVRow) : list Z :=
  Z.of_nat <$> seq 0 (length rows).

(** [handleSelectAll]: the selection it sets. *)
Definition handleSelectAll (rows : list CSVRow) (selectedRows : gset Z) : gset Z :=
  if Nat.eqb (size selectedRows) (length rows) then ∅
  else list_to_set (allIndices rows).

(** What [{confidence && <Badge>{Math.round(confidence * 100)}%</Badge>}]
    puts in the cell: nothing for an absent confidence, the badge with its
    percentage for a truthy one, and the falsy number itself (React renders
    a number, so 0 shows as the text 0) otherwise. *)
Inductive ConfidenceNode :=
| NoNode
| NumberText (x : float)
| Badge (percent : float).

Definition confidenceNode (c : option float) : ConfidenceNode :=
  match c with
  | None => NoNode
  | Some x => if truthyNumber x then Badge (Math_round (x * 100)%float) else NumberText x
  end.

(** The field cell of a row: [result?.enrichments[field.name]] and the badge
    derived from its confidence. *)
Definition fieldConfidence (result : option RowEnrichmentResult) (field : EnrichmentField)
  : option float :=
  match result with
  | None => None
  | Some r =>
      match enrichments r !! name field with
      | None => None
      | Some e => confidence e
      end
  end.

Definition fieldBadge (result : option RowEnrichmentResult) (field : EnrichmentField)
  : ConfidenceNode :=
  confidenceNode (fieldConfidence result field).

(** The auto-scroll effect, run when [currentProcessingRow] changes: the item
    index it passes to the list's [scrollToItem(_, 'center')], if it scrolls
    at all.  The list renders [sortedData[index]] at item [index]. *)
Definition autoScroll (currentProcessingRow : Z) (listMounted : bool) : option Z :=
  if (0 <=? currentProcessingRow) && listMounted then Some currentProcessingRow
  else None.

(** *** The rest of the component *)

(** The columns of the table ([columns]); [columnKey] is the source's
    [key], a name the sort configuration already uses here. *)
Record TableColumn := {
  columnKey : string;
  title : string;
  width : float;
  minWidth : float;
  resizable : bool;
  sortable : bool
}.

Definition emailCol (emailColumn : option string) : TableColumn :=
  {| columnKey := "email";
     title := match emailColumn with
              | Some c => if String.eqb c "" then "Email" else c
              | None => "Email"
              end;
     width := 250; minWidth := 200; resizable := true; sortable := true |}.

Definition fieldCol (field : EnrichmentField) : TableColumn :=
  {| columnKey := name field; title := displayName field;
     width := 180; minWidth := 120; resizable := true; sortable := true |}.

Definition actionCol : TableColumn :=
  {| columnKey := "actions"; title := "Actions";
     width := 120; minWidth := 100; resizable := false; sortable := false |}.

Definition columns (fields : list EnrichmentField) (emailColumn : option string)
  : list TableColumn :=
  emailCol emailColumn :: (fieldCol <$> fields) ++ [actionCol].

(** A click on a column header: [column.sortable && handleSort(column.key)]. *)
Definition headerClick (column : TableColumn) (sortConfig : option SortConfig)
  : option SortConfig :=
  if sortable column then handleSort (columnKey column) sortConfig else sortConfig.

(** The chevron a header shows: up for ascending, down for descending, on a
    sortable column whose key is the configuration's. *)
Definition sortIndicator (column : TableColumn) (sortConfig : option SortConfig)
  : option Direction :=
  match sortConfig with
  | Some c =>
      if sortable column && String.eqb (key c) (columnKey column)
      then Some (direction c) else None
  | None => None
  end.

(** [getStatusIcon]: the clock, the green check, the red and the yellow
    alert circle, and the grey dot of the default case. *)
Inductive StatusIcon := ClockIcon | CheckIcon | ErrorIcon | SkippedIcon | GreyDot.

Definition getStatusIcon (st : string) : StatusIcon :=
  if String.eqb st "processing" then ClockIcon
  else if String.eqb st "completed" then CheckIcon
  else if String.eqb st "error" then ErrorIcon
  else if String.eqb st "skipped" then SkippedIcon
  else GreyDot.

(** The header checkbox and the footer. *)
Definition headerChecked (rows : list CSVRow) (selectedRows : gset Z) : bool :=
  Nat.eqb (size selectedRows) (length rows) && Nat.ltb 0 (length rows).

Definition footerShown (selectedRows : gset Z) : bool := Nat.ltb 0 (size selectedRows).

Section Cells.

(** The host's Number::toString, used by [String(value)]. *)
Variable NumberToString : float -> string.

(** [formatValue] *)
Definition formatValue (v : Value) : string :=
  match v with
  | VUndefined | VNull => "-"
  | VArr l => String.concat ", " l
  | VBool b => if b then "Yes" else "No"
  | VNum x => NumberToString x
  | VStr s => s
  end.

(** The text of a field cell: [formatValue(result?.enrichments[field.name]?.value)]. *)
Definition fieldText (result : option RowEnrichmentResult) (field : EnrichmentField)
  : string :=
  formatValue (enrichmentValue result (name field)).

End Cells.

(** The text of the identity cell: [emailValue || '-']. *)
Definition emailText (emailColumn : option string) (row : CSVRow) : Value :=
  or (emailValue emailColumn row) (VStr "-").

Section Rendering.

Variable StringToNumber : string -> float.
Variable rows : list CSVRow.
Variable emailColumn : option string.

(** The icon of the row shown at a list item. *)
Definition rowIcon (results : gmap Z RowEnrichmentResult) (currentProcessingRow rowIndex : Z)
  : StatusIcon :=
  getStatusIcon (getRowStatus results currentProcessingRow rowIndex).

(** What the user does to the selection: the checkbox of the row rendered at
    a list item (with the results and the sort configuration of that
    moment), or the header checkbox. *)
Inductive SelectionEvent :=
| RowCheckbox (results : gmap Z RowEnrichmentResult) (sortConfig : option SortConfig)
    (index : nat) (checked : bool)
| HeaderCheckbox.

Definition selectionStep (selectedRows : gset Z) (e : SelectionEvent) : gset Z :=
  match e with
  | RowCheckbox results sortConfig index checked =>
      match sortedData StringToNumber rows results emailColumn sortConfig !! index with
      | Some row => handleRowSelect (rowIndexOf rows row) checked selectedRows
      | None => selectedRows
      end
  | HeaderCheckbox => handleSelectAll rows selectedRows
  end.

Definition selectionAfter (es : list SelectionEvent) : gset Z := foldl selectionStep ∅ es.

End Rendering.

End VirtualTable.

(** ** The performance-monitoring hook ([usePerformanceMonitoring]) *)

Module PerformanceMonitoring.

Import JS.

Local Open Scope string_scope.

Record PerformanceMetrics := {
  memoryUsage : float;
  renderTime : float;
  processingSpeed : float;
  errorRate : float;
  totalRows : float;
  processedRows : float;
  startTime : float;
  lastUpdateTime : float;
  frameRate : float;
  networkRequests : float;
  failedRequests : float
}.

Record PerformanceThresholds := {
  maxMemoryUsage : float;
  maxRenderTime : float;
  minProcessingSpeed : float;
  maxErrorRate : float;
  minFrameRate : float
}.

Definition DEFAULT_THRESHOLDS : PerformanceThresholds :=
  {| maxMemoryUsage := 500; maxRenderTime := 100; minProcessingSpeed := 1000;
     maxErrorRate := 5; minFrameRate := 30 |}.

(** The hook's state: the [metrics] and [alerts] state cells and the two
    refs of the frame counter. *)
Record Hook := {
  metrics : PerformanceMetrics;
  alerts : list string;
  frameCount : float;
  lastFrameTime : float
}.

(** The metrics a run starts from; [started] and [updated] are the two
    clock readings taken while the object is built. *)
Definition freshMetrics (started updated : float) : PerformanceMetrics :=
  {| memoryUsage := 0; renderTime := 0; processingSpeed := 0; errorRate := 0;
     totalRows := 0; processedRows := 0; startTime := started;
     lastUpdateTime := updated; frameRate := 0; networkRequests := 0;
     failedRequests := 0 |}.

Definition initial (started updated frameOrigin : float) : Hook :=
  {| metrics := freshMetrics started updated; alerts := [];
     frameCount := 0; lastFrameTime := frameOrigin |}.

(** [prev => prev.includes(alert) ? prev : [...prev, alert]] *)
Definition addAlert (alert : string) (prev : list string) : list string :=
  if includes prev alert then prev else prev ++ [alert].

(** The state updates [setMetrics(prev => ({...prev, ...}))] of the hook. *)
Definition withMemory (mem now : float) (m : PerformanceMetrics) : PerformanceMetrics :=
  {| memoryUsage := mem; renderTime := renderTime m;
     processingSpeed := processingSpeed m; errorRate := errorRate m;
     totalRows := totalRows m; processedRows := processedRows m;
     startTime := startTime m; lastUpdateTime := now; frameRate := frameRate m;
     networkRequests := networkRequests m; failedRequests := failedRequests m |}.

Definition withFrameRate (fps now : float) (m : PerformanceMetrics) : PerformanceMetrics :=
  {| memoryUsage := memoryUsage m; renderTime := renderTime m;
     processingSpeed := processingSpeed m; errorRate := errorRate m;
     totalRows := totalRows m; processedRows := processedRows m;
     startTime := startTime m; lastUpdateTime := now; frameRate := fps;
     networkRequests := networkRequests m; failedRequests := failedRequests m |}.

Definition withRenderTime (ms now : float) (m : PerformanceMetrics) : PerformanceMetrics :=
  {| memoryUsage := memoryUsage m; renderTime := ms;
     processingSpeed := processingSpeed m; errorRate := errorRate m;
     totalRows := totalRows m; processedRows := processedRows m;
     startTime := startTime m; lastUpdateTime := now; frameRate := frameRate m;
     networkRequests := networkRequests m; failedRequests := failedRequests m |}.

Definition withProcessing (total processed speed rate now : float) (m : PerformanceMetrics)
  : PerformanceMetrics :=
  {| memoryUsage := memoryUsage m; renderTime := renderTime m;
     processingSpeed := speed; errorRate := rate;
     totalRows := total; processedRows := processed;
     startTime := startTime m; lastUpdateTime := now; frameRate := frameRate m;
     networkRequests := networkRequests m; failedRequests := failedRequests m |}.

Definition withRequest (success : bool) (now : float) (m : PerformanceMetrics)
  : PerformanceMetrics :=
  {| memoryUsage := memoryUsage m; renderTime := renderTime m;
     processingSpeed := processingSpeed m; errorRate := errorRate m;
     totalRows := totalRows m; processedRows := processedRows m;
     startTime := startTime m; lastUpdateTime := now; frameRate := frameRate m;
     networkRequests := (networkRequests m + 1)%float;
     failedRequests :=
       if success then failedRequests m else (failedRequests m + 1)%float |}.

Definition setMetrics (f : PerformanceMetrics -> PerformanceMetrics) (h : Hook) : Hook :=
  {| metrics := f (metrics h); alerts := alerts h;
     frameCount := frameCount h; lastFrameTime := lastFrameTime h |}.

Definition setAlerts (f : list string -> list string) (h : Hook) : Hook :=
  {| metrics := metrics h; alerts := f (alerts h);
     frameCount := frameCount h; lastFrameTime := lastFrameTime h |}.

Definition setFrameRefs (count last : float) (h : Hook) : Hook :=
  {| metrics := metrics h; alerts := alerts h;
     frameCount := count; lastFrameTime := last |}.

(** The elapsed minutes and the two rates of [updateProcessingMetrics]. *)
Definition elapsedMinutes (now started : float) : float :=
  ((now - started) / 60000)%float.

Definition speedOf (processed minutes : float) : float :=
  if gt minutes 0 then Math_round (processed / minutes)%float else 0%float.

Definition errorRateOf (total errors : float) : float :=
  if gt total 0 then Math_round ((errors / total) * 100)%float else 0%float.

Definition quote : string := String (Ascii.ascii_of_nat 34) EmptyString.

Section Hook.

(** The host's Number::toString, used by the template literals. *)
Variable NumberToString : float -> string.

Variable thresholds : PerformanceThresholds.

Definition memoryAlert (memoryUsageMB : float) : string :=
  "High memory usage: " ++ NumberToString (Math_round memoryUsageMB)
    ++ "MB (threshold: " ++ NumberToString (maxMemoryUsage thresholds) ++ "MB)".

Definition frameRateAlert (fps : float) : string :=
  "Low frame rate: " ++ NumberToString fps
    ++ "fps (threshold: " ++ NumberToString (minFrameRate thresholds) ++ "fps)".

Definition renderAlert (componentName : string) (ms : float) : string :=
  "Slow render: " ++ componentName ++ " took " ++ NumberToString (Math_round ms)
    ++ "ms (threshold: " ++ NumberToString (maxRenderTime thresholds) ++ "ms)".

Definition speedAlert (speed : float) : string :=
  "Slow processing: " ++ NumberToString speed
    ++ " rows/min (threshold: " ++ NumberToString (minProcessingSpeed thresholds)
    ++ " rows/min)".

Definition errorRateAlert (rate : float) : string :=
  "High error rate: " ++ NumberToString rate
    ++ "% (threshold: " ++ NumberToString (maxErrorRate thresholds) ++ "%)".

Definition measureAlert (entryName : string) (ms : float) : string :=
  "Performance measure " ++ quote ++ entryName ++ quote ++ " took "
    ++ NumberToString (Math_round ms) ++ "ms".

(** [measureMemoryUsage]; [heap] is [performance.memory.usedJSHeapSize]
    where the host has it. *)
Definition measureMemoryUsage (heap : option float) (now : float) (h : Hook) : Hook :=
  match heap with
  | None => h
  | Some usedJSHeapSize =>
      let memoryUsageMB := (usedJSHeapSize / 1024 / 1024)%float in
      let h := setMetrics (withMemory (Math_round memoryUsageMB) now) h in
      if gt memoryUsageMB (maxMemoryUsage thresholds)
      then setAlerts (addAlert (memoryAlert memoryUsageMB)) h
      else h
  end.

(** One tick of [measureFrameRate]. *)
Definition measureFrameRate (now : float) (h : Hook) : Hook :=
  let count := (frameCount h + 1)%float in
  let timeDiff := (now - lastFrameTime h)%float in
  if le 1000 timeDiff then
    let fps := Math_round ((count * 1000) / timeDiff)%float in
    let h := setMetrics (withFrameRate fps now) h in
    let h := setFrameRefs 0 now h in
    if lt fps (minFrameRate thresholds)
    then setAlerts (addAlert (frameRateAlert fps)) h
    else h
  else setFrameRefs count (lastFrameTime h) h.

(** [measureRenderTime]; [endTime] is the reading of [performance.now()]. *)
Definition measureRenderTime (componentName : string) (start endTime now : float)
  (h : Hook) : Hook :=
  let ms := (endTime - start)%float in
  let h := setMetrics (withRenderTime (Math_round ms) now) h in
  if gt ms (maxRenderTime thresholds)
  then setAlerts (addAlert (renderAlert componentName ms)) h
  else h.

(** [updateProcessingMetrics].  The callback computes the elapsed time from
    [metrics.startTime], which it reads from the render that created it and
    not from the state its updaters receive: [started] is that value.  It
    is the state's start time once the hook has been rendered again after
    the last [resetMetrics], and still the previous run's until then. *)
Definition updateProcessingMetrics (started total processed errors now : float) (h : Hook)
  : Hook :=
  let minutes := elapsedMinutes now started in
  let speed := speedOf processed minutes in
  let rate := errorRateOf total errors in
  let h := setMetrics (withProcessing total processed speed rate now) h in
  let h :=
    if gt speed 0 && lt speed (minProcessingSpeed thresholds)
    then setAlerts (addAlert (speedAlert speed)) h
    else h in
  if gt rate (maxErrorRate thresholds)
  then setAlerts (addAlert (errorRateAlert rate)) h
  else h.

(** [trackNetworkRequest] *)
Definition trackNetworkRequest (success : bool) (now : float) (h : Hook) : Hook :=
  setMetrics (withRequest success now) h.

(** One entry delivered to the performance observer. *)
Definition observeEntry (entryType entryName : string) (duration now : float)
  (h : Hook) : Hook :=
  if String.eqb entryType "measure" then
    let h := setMetrics (withRenderTime (Math_round duration) now) h in
    if gt duration (maxRenderTime thresholds)
    then setAlerts (addAlert (measureAlert entryName duration)) h
    else h
  else h.

(** [resetMetrics], [clearAlert], [clearAllAlerts] *)
Definition resetMetrics (started updated : float) (h : Hook) : Hook :=
  setAlerts (fun _ => []) (setMetrics (fun _ => freshMetrics started updated) h).

Definition clearAlert (alertToRemove : string) (h : Hook) : Hook :=
  setAlerts (filter (fun alert => alert <> alertToRemove)) h.

Definition clearAllAlerts (h : Hook) : Hook := setAlerts (fun _ => []) h.

(** [getPerformanceStatus] *)
Definition issues (m : PerformanceMetrics) : list string :=
  (if gt (memoryUsage m) (maxMemoryUsage thresholds) then ["memory"] else [])
  ++ (if gt (renderTime m) (maxRenderTime thresholds) then ["render"] else [])
  ++ (if gt (processingSpeed m) 0 && lt (processingSpeed m) (minProcessingSpeed thresholds)
      then ["processing"] else [])
  ++ (if gt (errorRate m) (maxErrorRate thresholds) then ["errors"] else [])
  ++ (if gt (frameRate m) 0 && lt (frameRate m) (minFrameRate thresholds)
      then ["framerate"] else []).

Definition getPerformanceStatus (m : PerformanceMetrics) : string :=
  let n := length (issues m) in
  if Nat.eqb n 0 then "good"
  else if Nat.leb n 2 then "warning"
  else "critical".

(** What the hook's callers and its timers can do to it.  A processing
    update comes with the start time its callback closed over. *)
Inductive Event :=
| MemorySample (heap : option float) (now : float)
| FrameTick (now : float)
| RenderMeasured (componentName : string) (start endTime now : float)
| ProcessingUpdate (started total processed errors now : float)
| NetworkOutcome (success : bool) (now : float)
| ObserverEntry (entryType entryName : string) (duration now : float)
| Reset (started updated : float)
| ClearAlert (alert : string)
| ClearAllAlerts.

Definition step (h : Hook) (e : Event) : Hook :=
  match e with
  | MemorySample heap now => measureMemoryUsage heap now h
  | FrameTick now => measureFrameRate now h
  | RenderMeasured c s e now => measureRenderTime c s e now h
  | ProcessingUpdate st t p er now => updateProcessingMetrics st t p er now h
  | NetworkOutcome ok now => trackNetworkRequest ok now h
  | ObserverEntry ty nm d now => observeEntry ty nm d now h
  | Reset s u => resetMetrics s u h
  | ClearAlert a => clearAlert a h
  | ClearAllAlerts => clearAllAlerts h
  end.

Definition run (h : Hook) (es : list Event) : Hook := foldl step h es.

End Hook.

(** The operations that record a measurement, as opposed to the three that
    reset or clear. *)
Definition recording (e : Event) : bool :=
  match e with
  | Reset _ _ | ClearAlert _ | ClearAllAlerts => false
  | _ => true
  end.

End PerformanceMonitoring.

(** ** The dashboard ([PerformanceDashboard]) *)

Module PerformanceDashboard.

Import JS PerformanceMonitoring.

(** [getStatusColor] and the dashboard's [getStatusIcon]: green, yellow,
    red, and the grey of the default case; the check, the triangle, the
    cross, and the activity icon of the default case. *)
Inductive StatusColor := Green | Yellow | Red | Grey.

Definition getStatusColor (st : string) : StatusColor :=
  if String.eqb st "good" then Green
  else if String.eqb st "warning" then Yellow
  else if String.eqb st "critical" then Red
  else Grey.

Inductive StatusIcon := CheckCircle | AlertTriangle | XCircle | Activity.

Definition getStatusIcon (st : string) : StatusIcon :=
  if String.eqb st "good" then CheckCircle
  else if String.eqb st "warning" then AlertTriangle
  else if String.eqb st "critical" then XCircle
  else Activity.

(** The dashboard calls the hook without an argument, so with the default
    thresholds. *)
Definition performanceStatus (m : PerformanceMetrics) : string :=
  getPerformanceStatus DEFAULT_THRESHOLDS m.

(** The alerts card: shown when [showAlerts && alerts.length > 0]; it lists
    [alerts.slice(0, 5)] and, past five, the number of the others. *)
Definition alertsCardShown (showAlerts : bool) (alerts : list string) : bool :=
  showAlerts && Nat.ltb 0 (length alerts).

Definition listedAlerts (alerts : list string) : list string := take 5 alerts.

Definition moreAlerts (alerts : list string) : option nat :=
  if Nat.ltb 5 (length alerts) then Some (length alerts - 5)%nat else None.

(** The badge of the compact view. *)
Definition compactBadge (alerts : list string) : option nat :=
  if Nat.ltb 0 (length alerts) then Some (length alerts) else None.

(** The tips card: shown when the status is not good, with one line per
    condition that holds. *)
Inductive Tip := SmallerBatches | VirtualScrolling | FewerRequests | CheckApiKeys.

Definition tipsCardShown (m : PerformanceMetrics) : bool :=
  negb (String.eqb (performanceStatus m) "good").

Definition tips (m : PerformanceMetrics) : list Tip :=
  (if gt (memoryUsage m) (maxMemoryUsage DEFAULT_THRESHOLDS) then [SmallerBatches] else [])
  ++ (if gt (renderTime m) (maxRenderTime DEFAULT_THRESHOLDS) then [VirtualScrolling] else [])
  ++ (if gt (processingSpeed m) 0
         && lt (processingSpeed m) (minProcessingSpeed DEFAULT_THRESHOLDS)
      then [FewerRequests] else [])
  ++ (if gt (errorRate m) (maxErrorRate DEFAULT_THRESHOLDS) then [CheckApiKeys] else []).

(** The progress card and the network card. *)
Definition progressCardShown (m : PerformanceMetrics) : bool := gt (totalRows m) 0.

Definition networkCardShown (m : PerformanceMetrics) : bool := gt (networkRequests m) 0.

(** What can happen to the dashboard's own instance of the hook: the hook's
    timers and observer, and the two buttons wired to [resetMetrics] and
    [clearAllAlerts].  The component takes neither [updateProcessingMetrics]
    nor [trackNetworkRequest], [measureRenderTime] or [clearAlert] from the
    hook and hands nothing of it to anyone else. *)
Definition reachable (e : Event) : bool :=
  match e with
  | MemorySample _ _ | FrameTick _ | ObserverEntry _ _ _ _ | Reset _ _ | ClearAllAlerts => true
  | RenderMeasured _ _ _ _ | ProcessingUpdate _ _ _ _ _ | NetworkOutcome _ _
  | ClearAlert _ => false
  end.

End PerformanceDashboard.

(** ** The specification's reading of the status *)

(** The number of thresholds breached at once, counted as the
    specification words it: memory, render time, processing speed (only once
    a speed above zero has been measured), error rate, frame rate (only once
    a rate above zero has been measured). *)
Definition breachedThresholds (th : PerformanceMonitoring.PerformanceThresholds)
  (m : PerformanceMonitoring.PerformanceMetrics) : nat :=
  let count (b : bool) : nat := if b then 1%nat else 0%nat in
  (count (JS.gt (PerformanceMonitoring.memoryUsage m) (PerformanceMonitoring.maxMemoryUsage th))
   + count (JS.gt (PerformanceMonitoring.renderTime m) (PerformanceMonitoring.maxRenderTime th))
   + count (JS.gt (PerformanceMonitoring.processingSpeed m) 0
            && JS.lt (PerformanceMonitoring.processingSpeed m)
                 (PerformanceMonitoring.minProcessingSpeed th))
   + count (JS.gt (PerformanceMonitoring.errorRate m) (PerformanceMonitoring.maxErrorRate th))
   + count (JS.gt (PerformanceMonitoring.frameRate m) 0
            && JS.lt (PerformanceMonitoring.frameRate m)
                 (PerformanceMonitoring.minFrameRate th)))%nat.

Definition statusOfCount (n : nat) : string :=
  match n with
  | O => "good"
  | 1%nat | 2%nat => "warning"
  | _ => "critical"
  end.

(** ** Hosts and datasets for the examples *)

Module Examples.

Local Open Scope string_scope.

(** A StringToNumber for the examples: it agrees with the host's on the
    empty string and on strings of decimal digits that denote an integer
    below 2^53, and the examples convert no other string. *)
Fixpoint digitsValue (s : string) (acc : Z) : option Z :=
  match s with
  | EmptyString => Some acc
  | String c s' =>
      let n := Z.of_nat (Ascii.nat_of_ascii c) in
      if ((48 <=? n) && (n <=? 57))%Z then digitsValue s' (10 * acc + (n - 48))%Z else None
  end.

Definition StringToNumber (s : string) : float :=
  match digitsValue s 0 with
  | Some n => if (n <? 2 ^ 53)%Z then JS.ofZ n else PrimFloat.nan
  | None => PrimFloat.nan
  end.

(** A Number::toString for the examples: as the host's on NaN, the
    infinities, the zeros and integers below 10^21, which is what the
    examples print; any other value is written with its exact decimal
    expansion. *)
Fixpoint fractionDigits (fuel : nat) (r d : Z) : string :=
  match fuel with
  | O => ""
  | S fuel' =>
      if (r =? 0)%Z then ""
      else pretty (10 * r / d)%Z ++ fractionDigits fuel' (10 * r mod d)%Z d
  end.

Definition NumberToString (x : float) : string :=
  match Prim2SF x with
  | S754_nan => "NaN"
  | S754_infinity s => if s then "-Infinity" else "Infinity"
  | S754_zero _ => "0"
  | S754_finite s m e =>
      let sign := if s then "-" else "" in
      if (0 <=? e)%Z then sign ++ pretty (Z.pos m * 2 ^ e)%Z
      else
        let d := (2 ^ (- e))%Z in
        let q := (Z.pos m / d)%Z in
        let r := (Z.pos m mod d)%Z in
        if (r =? 0)%Z then sign ++ pretty q
        else sign ++ pretty q ++ "." ++ fractionDigits (Z.to_nat (- e)) r d
  end.

(** The three-row dataset of the specification's end-to-end scenario, with
    the results the stream has delivered: row 1 completed with score 42 at
    confidence 0.9, row 0 failed, row 2 not reached. *)
Definition threeRows : list VirtualTable.CSVRow :=
  [ {| VirtualTable.ref := 0; VirtualTable.cells := [("email", "a@x.com")] |};
    {| VirtualTable.ref := 1; VirtualTable.cells := [("email", "b@x.com")] |};
    {| VirtualTable.ref := 2; VirtualTable.cells := [("email", "c@x.com")] |} ].

Definition scored (st : string) (score confidence : float)
  : VirtualTable.RowEnrichmentResult :=
  {| VirtualTable.status := Some st;
     VirtualTable.enrichments :=
       {[ "score" := {| VirtualTable.value := JS.VNum score;
                        VirtualTable.confidence := Some confidence |} ]} |}.

(** A completed result that holds [v] for the score, without a confidence. *)
Definition valued (v : JS.Value) : VirtualTable.RowEnrichmentResult :=
  {| VirtualTable.status := Some "completed";
     VirtualTable.enrichments :=
       {[ "score" := {| VirtualTable.value := v; VirtualTable.confidence := None |} ]} |}.

Definition streamed : gmap Z VirtualTable.RowEnrichmentResult :=
  <[ 0%Z := {| VirtualTable.status := Some "error"; VirtualTable.enrichments := ∅ |} ]>
    {[ 1%Z := scored "completed" 42 (9 / 10) ]}.

Definition byScore : VirtualTable.SortConfig :=
  {| VirtualTable.key := "score"; VirtualTable.direction := VirtualTable.asc |}.

Definition byEmail : VirtualTable.SortConfig :=
  {| VirtualTable.key := "email"; VirtualTable.direction := VirtualTable.asc |}.

(** Four rows, two pairs of equal scores. *)
Definition fourRows : list VirtualTable.CSVRow :=
  threeRows
  ++ [ {| VirtualTable.ref := 3; VirtualTable.cells := [("email", "d@x.com")] |} ].

Definition pairedScores : gmap Z VirtualTable.RowEnrichmentResult :=
  <[ 0%Z := scored "completed" 2 1 ]>
    (<[ 1%Z := scored "completed" 1 1 ]>
       (<[ 2%Z := scored "completed" 2 1 ]> {[ 3%Z := scored "completed" 1 1 ]})).


(** A falsy score on row 0 ([v]), none on row 1, -5 on row 2. *)
Definition falsyAndNegative (v : JS.Value) : gmap Z VirtualTable.RowEnrichmentResult :=
  <[ 0%Z := valued v ]> {[ 2%Z := valued (JS.VNum (-5)) ]}.

(** Three rows uploaded in descending order of their e-mail address. *)
Definition descendingEmails : list VirtualTable.CSVRow :=
  [ {| VirtualTable.ref := 0; VirtualTable.cells := [("email", "c@x.com")] |};
    {| VirtualTable.ref := 1; VirtualTable.cells := [("email", "b@x.com")] |};
    {| VirtualTable.ref := 2; VirtualTable.cells := [("email", "a@x.com")] |} ].

End Examples.

(** ** Facts about number comparison, from the specification of the
    primitive operations *)

Lemma compare_cont_Eq_antisym (p q : positive) :
  Pos.compare_cont Eq q p = CompOpp (Pos.compare_cont Eq p q).
Proof. exact (Pos.compare_antisym p q). Qed.

Lemma SFcompare_Lt_Gt (a b : spec_float) :
  SFcompare a b = Some Lt -> SFcompare b a = Some Gt.
Proof.
  destruct a as [sa|sa| |sa ma ea], b as [sb|sb| |sb mb eb]; simpl; try discriminate;
    try (destruct sa; discriminate); try (destruct sb; discriminate);
    try (destruct sa, sb; simpl; congruence).
  destruct sa, sb; simpl; try congruence;
    rewrite (Z.compare_antisym ea eb);
    destruct (ea ?= eb) eqn:He; simpl; try congruence;
    rewrite (compare_cont_Eq_antisym ma mb);
    destruct (Pos.compare_cont Eq ma mb); simpl; congruence.
Qed.

Lemma lt_asym (x y : float) : JS.lt x y = true -> JS.lt y x = false.
Proof.
  unfold JS.lt. rewrite !FloatAxioms.ltb_spec. unfold SFltb. intros H.
  destruct (SFcompare (Prim2SF x) (Prim2SF y)) as [[]|] eqn:E; try discriminate.
  now rewrite (SFcompare_Lt_Gt _ _ E).
Qed.

Lemma SFcompare_refl_finite (s : bool) (m : positive) (e : Z) :
  SFcompare (S754_finite s m e) (S754_finite s m e) = Some Eq.
Proof.
  simpl. rewrite Z.compare_refl.
  change (Pos.compare_cont Eq m m) with (Pos.compare m m).
  rewrite Pos.compare_refl. now destruct s.
Qed.

(** A number is truthy exactly when it is below or above zero. *)
Lemma truthyNumber_lt (x : float) :
  JS.truthyNumber x = JS.lt x 0 || JS.lt 0 x.
Proof.
  unfold JS.truthyNumber, JS.isNaN, JS.lt.
  rewrite !FloatAxioms.eqb_spec, !FloatAxioms.ltb_spec.
  change (Prim2SF 0) with (S754_zero false).
  destruct (Prim2SF x) as [s|s| |s m e]; unfold SFeqb, SFltb.
  - reflexivity.
  - now destruct s.
  - reflexivity.
  - rewrite SFcompare_refl_finite. now destruct s.
Qed.

(** What is not below zero is a number. *)
Lemma leb_zero_number (x : float) :
  PrimFloat.leb 0 x = true -> PrimFloat.eqb x x = true.
Proof.
  rewrite FloatAxioms.leb_spec, FloatAxioms.eqb_spec.
  change (Prim2SF 0) with (S754_zero false).
  destruct (Prim2SF x) as [s|s| |s m e]; unfold SFleb, SFeqb.
  - reflexivity.
  - now destruct s.
  - discriminate.
  - intros _. now rewrite SFcompare_refl_finite.
Qed.

(** A quotient by a positive finite number is not positive when the
    dividend is not. *)
Lemma binary_round_aux_sign (s : bool) (m e : Z) (l : location) :
  match binary_round_aux prec emax s m e l with
  | S754_zero s' | S754_infinity s' | S754_finite s' _ _ => s' = s
  | S754_nan => True
  end.
Proof.
  unfold binary_round_aux.
  destruct (shr_fexp prec emax m e l) as [mrs' e'].
  destruct (shr_fexp prec emax _ e' loc_Exact) as [mrs'' e''].
  destruct (shr_m mrs''); [reflexivity| |exact I].
  now destruct (e'' <=? emax - prec).
Qed.

Lemma nonpositive_quotient (x : float) :
  JS.le x 0 = true -> JS.gt (x / 60000)%float 0 = false.
Proof.
  unfold JS.le, JS.gt.
  rewrite FloatAxioms.leb_spec, FloatAxioms.ltb_spec, FloatAxioms.div_spec.
  change (Prim2SF 0) with (S754_zero false).
  set (d := Prim2SF 60000).
  assert (Hd : exists md ed, d = S754_finite false md ed) by (vm_compute; eauto).
  destruct Hd as (md & ed & ->).
  destruct (Prim2SF x) as [s|s| |s m e]; unfold SFleb, SFltb; simpl SFcompare.
  - reflexivity.
  - destruct s; [reflexivity|discriminate].
  - discriminate.
  - destruct s; [|discriminate]. intros _.
    unfold SF64div, SFdiv.
    destruct (SFdiv_core_binary prec emax (Z.pos m) e (Z.pos md) ed) as [[mz ez] lz].
    pose proof (binary_round_aux_sign (xorb true false) mz ez lz) as Hs.
    destruct (binary_round_aux prec emax (xorb true false) mz ez lz) as [s'|s'| |s' m' e'];
      simpl in Hs; subst; reflexivity.
Qed.

(** * Properties *)

Import JS VirtualTable.

(** [Math.round] on halves, on a negative fraction, and on the two products
    met below. *)
Example Math_round_values :
  Math_round (5 / 2) = 3%float
  /\ Math_round (- 5 / 2) = (-2)%float
  /\ Math_round (- 3 / 10) = (-0)%float
  /\ Math_round (1 / 3) = 0%float
  /\ Math_round (57 / 200 * 100) = 28%float
  /\ Math_round (9 / 10 * 100) = 90%float
  /\ Math_round PrimFloat.infinity = PrimFloat.infinity.
Proof. repeat split; vm_compute; reflexivity. Qed.

(** ** Selection *)

Lemma allIndices_NoDup (rows : list CSVRow) : NoDup (allIndices rows).
Proof.
  unfold allIndices. apply NoDup_fmap; [intros x y; lia | apply NoDup_seq].
Qed.

Lemma allIndices_length (rows : list CSVRow) : length (allIndices rows) = length rows.
Proof. unfold allIndices. now rewrite length_fmap, length_seq. Qed.

Lemma size_all_selected (rows : list CSVRow) :
  size (list_to_set (allIndices rows) : gset Z) = length rows.
Proof.
  rewrite size_list_to_set by apply allIndices_NoDup. apply allIndices_length.
Qed.

(** C4, as the component has it: [handleSelectAll] empties a selection whose
    size equals the number of rows and otherwise selects the index of every
    row; on a non-empty dataset two calls in succession therefore end with
    the empty selection when the selection they start from has a size other
    than the number of rows, and with the full selection when its size is
    the number of rows. *)
Theorem handleSelectAll_toggle (rows : list CSVRow) (selectedRows : gset Z) :
  (size selectedRows = length rows -> handleSelectAll rows selectedRows = ∅)
  /\ (size selectedRows <> length rows ->
      handleSelectAll rows selectedRows = list_to_set (allIndices rows))
  /\ (rows <> [] -> size selectedRows <> length rows ->
      handleSelectAll rows (handleSelectAll rows selectedRows) = ∅)
  /\ (rows <> [] -> size selectedRows = length rows ->
      handleSelectAll rows (handleSelectAll rows selectedRows)
      = list_to_set (allIndices rows)).
Proof.
  assert (Hone : size selectedRows = length rows -> handleSelectAll rows selectedRows = ∅).
  { intros H. unfold handleSelectAll. now rewrite H, Nat.eqb_refl. }
  assert (Hother : forall s : gset Z, size s <> length rows ->
            handleSelectAll rows s = list_to_set (allIndices rows)).
  { intros s H. unfold handleSelectAll.
    now destruct (Nat.eqb_spec (size s) (length rows)). }
  assert (Hfull : handleSelectAll rows (list_to_set (allIndices rows)) = ∅).
  { unfold handleSelectAll. now rewrite size_all_selected, Nat.eqb_refl. }
  repeat split; auto.
  - intros _ H. now rewrite (Hother _ H).
  - intros Hne H. rewrite (Hone H). apply Hother.
    rewrite size_empty. destruct rows; [congruence | simpl; lia].
Qed.

(** C4, the input on which two calls do not end empty: one row, already
    selected.  The first call clears the selection, the second selects the
    row again. *)
Lemma handleSelectAll_twice_from_full :
  handleSelectAll [ {| ref := 0; cells := [("email", "a@x.com")] |} ] {[ 0 ]} = ∅
  /\ handleSelectAll [ {| ref := 0; cells := [("email", "a@x.com")] |} ]
       (handleSelectAll [ {| ref := 0; cells := [("email", "a@x.com")] |} ] {[ 0 ]})
     = {[ 0 ]}.
Proof. split; reflexivity. Qed.

(** ** Status derivation *)

(** C9: a row that has an entry in the result store whose status is absent
    or empty is shown as completed, whatever the currently-processing
    marker is. *)
Theorem getRowStatus_result_without_status
  (results : gmap Z RowEnrichmentResult) (currentProcessingRow rowIndex : Z)
  (result : RowEnrichmentResult) :
  results !! rowIndex = Some result ->
  status result = None \/ status result = Some "" ->
  getRowStatus results currentProcessingRow rowIndex = "completed".
Proof.
  intros Hr Hs. unfold getRowStatus. rewrite Hr.
  destruct Hs as [-> | ->]; reflexivity.
Qed.

Lemma getRowStatus_result_without_status_witness :
  getRowStatus {[ 3 := {| status := None; enrichments := ∅ |} ]} 3 3 = "completed".
Proof.
  apply (getRowStatus_result_without_status _ 3 3 {| status := None; enrichments := ∅ |}).
  - apply lookup_singleton_eq.
  - left; reflexivity.
Defined.

(** The scenario's rows: row 0 failed, row 1 is completed and shows the
    badge 90 for its score, row 2 is pending and becomes processing when the
    marker reaches it. *)
Example scenario_cells :
  getRowStatus Examples.streamed (-1) 0 = "error"
  /\ getRowStatus Examples.streamed (-1) 1 = "completed"
  /\ getRowStatus Examples.streamed (-1) 2 = "pending"
  /\ getRowStatus Examples.streamed 2 2 = "processing"
  /\ fieldBadge (Examples.streamed !! 1) {| name := "score"; displayName := "Score" |}
     = Badge 90
  /\ fieldBadge (Examples.streamed !! 0) {| name := "score"; displayName := "Score" |}
     = NoNode.
Proof. repeat split; vm_compute; reflexivity. Qed.

(** ** The confidence badge *)

(** C10: the field cell of a row shows the badge exactly when the row has a
    result, the result has the field, and the field's confidence is present
    and is a number other than zero; the badge then reads
    [Math.round(confidence * 100)].  For a confidence that is a fraction in
    [0,1], as the data model has it, the badge is shown exactly when the
    confidence is not zero.  Every positive confidence shows the badge; a
    confidence of 0 shows none (the cell gets the number itself, React
    rendering a number, so 0 is printed); so does NaN, which is no number
    and is falsy as 0 is; a missing result, a missing field and a missing
    confidence leave the place empty. *)
Theorem fieldBadge_shown_iff_nonzero
  (results : gmap Z RowEnrichmentResult) (rowIndex : Z) (field : EnrichmentField) :
  (forall p, fieldBadge (results !! rowIndex) field = Badge p <->
     exists r e c,
       results !! rowIndex = Some r
       /\ enrichments r !! name field = Some e
       /\ confidence e = Some c
       /\ PrimFloat.eqb c 0 = false /\ PrimFloat.eqb c c = true
       /\ p = Math_round (c * 100)%float)
  /\ (forall r e c,
        results !! rowIndex = Some r -> enrichments r !! name field = Some e ->
        confidence e = Some c ->
        PrimFloat.leb 0 c = true -> PrimFloat.leb c 1 = true ->
        ((exists p, fieldBadge (results !! rowIndex) field = Badge p)
         <-> PrimFloat.eqb c 0 = false))
  /\ (forall r e c,
        results !! rowIndex = Some r -> enrichments r !! name field = Some e ->
        confidence e = Some c -> PrimFloat.ltb 0 c = true ->
        fieldBadge (results !! rowIndex) field = Badge (Math_round (c * 100)%float))
  /\ (forall r e,
        results !! rowIndex = Some r -> enrichments r !! name field = Some e ->
        confidence e = Some 0%float ->
        fieldBadge (results !! rowIndex) field = NumberText 0)
  /\ (forall r e c,
        results !! rowIndex = Some r -> enrichments r !! name field = Some e ->
        confidence e = Some c -> PrimFloat.eqb c c = false ->
        fieldBadge (results !! rowIndex) field = NumberText c)
  /\ (results !! rowIndex = None -> fieldBadge (results !! rowIndex) field = NoNode)
  /\ (forall r,
        results !! rowIndex = Some r -> enrichments r !! name field = None ->
        fieldBadge (results !! rowIndex) field = NoNode)
  /\ (forall r e,
        results !! rowIndex = Some r -> enrichments r !! name field = Some e ->
        confidence e = None ->
        fieldBadge (results !! rowIndex) field = NoNode).
Proof.
  split; [|split; [|split; [|split; [|split; [|split; [|split]]]]]].
  - intros p. split.
    + unfold fieldBadge, fieldConfidence, confidenceNode.
      destruct (results !! rowIndex) as [r|]; [|discriminate].
      destruct (enrichments r !! name field) as [e|] eqn:He; [|discriminate].
      destruct (confidence e) as [c|] eqn:Hc; [|discriminate].
      unfold truthyNumber, isNaN.
      destruct (PrimFloat.eqb c 0) eqn:E0; [discriminate|].
      destruct (PrimFloat.eqb c c) eqn:Ec; [|discriminate].
      simpl. intros [= <-]. exists r, e, c. repeat split; assumption.
    + intros (r & e & c & -> & He & Hc & E0 & Ec & ->).
      unfold fieldBadge, fieldConfidence, confidenceNode. rewrite He, Hc.
      unfold truthyNumber, isNaN. now rewrite E0, Ec.
  - intros r e c -> He Hc Hlow _.
    unfold fieldBadge, fieldConfidence, confidenceNode. rewrite He, Hc.
    unfold truthyNumber, isNaN. rewrite (leb_zero_number c Hlow).
    destruct (PrimFloat.eqb c 0); simpl; split; intros H;
      try discriminate; try reflexivity; eauto.
    now destruct H.
  - intros r e c -> He Hc Hpos.
    unfold fieldBadge, fieldConfidence, confidenceNode. rewrite He, Hc.
    rewrite truthyNumber_lt. unfold JS.lt. now rewrite Hpos, orb_true_r.
  - intros r e -> He Hc.
    unfold fieldBadge, fieldConfidence. now rewrite He, Hc.
  - intros r e c -> He Hc Hnan.
    unfold fieldBadge, fieldConfidence, confidenceNode. rewrite He, Hc.
    unfold truthyNumber, isNaN. rewrite Hnan. now rewrite andb_false_r.
  - now intros ->.
  - intros r -> He. unfold fieldBadge, fieldConfidence. now rewrite He.
  - intros r e -> He Hc. unfold fieldBadge, fieldConfidence. now rewrite He, Hc.
Qed.

(** The scenario's store: row 1 has the score at confidence 0.9 and shows
    the badge 90; row 0 has a result without the score and row 2 has no
    result, and neither shows anything; with a confidence of 0 the cell of
    row 1 shows the number 0 and no badge. *)
Lemma fieldBadge_shown_iff_nonzero_witness :
  fieldBadge (Examples.streamed !! 1) {| name := "score"; displayName := "Score" |}
  = Badge 90
  /\ fieldBadge (Examples.streamed !! 0) {| name := "score"; displayName := "Score" |}
     = NoNode
  /\ fieldBadge (Examples.streamed !! 2) {| name := "score"; displayName := "Score" |}
     = NoNode
  /\ fieldBadge (({[ 1 := Examples.scored "completed" 42 0 ]}
                    : gmap Z RowEnrichmentResult) !! 1)
       {| name := "score"; displayName := "Score" |}
     = NumberText 0.
Proof.
  split; [|split; [|split]].
  - destruct (fieldBadge_shown_iff_nonzero Examples.streamed 1
                {| name := "score"; displayName := "Score" |}) as (_ & _ & Hpositive & _).
    apply (Hpositive (Examples.scored "completed" 42 (9 / 10))
             {| value := VNum 42; confidence := Some (9 / 10)%float |} (9 / 10)%float);
      vm_compute; reflexivity.
  - destruct (fieldBadge_shown_iff_nonzero Examples.streamed 0
                {| name := "score"; displayName := "Score" |})
      as (_ & _ & _ & _ & _ & _ & Hfield & _).
    apply (Hfield {| status := Some "error"; enrichments := ∅ |});
      vm_compute; reflexivity.
  - destruct (fieldBadge_shown_iff_nonzero Examples.streamed 2
                {| name := "score"; displayName := "Score" |})
      as (_ & _ & _ & _ & _ & Hresult & _).
    apply Hresult. vm_compute; reflexivity.
  - destruct (fieldBadge_shown_iff_nonzero {[ 1 := Examples.scored "completed" 42 0 ]} 1
                {| name := "score"; displayName := "Score" |})
      as (_ & _ & _ & Hzero & _).
    apply (Hzero (Examples.scored "completed" 42 0)
             {| value := VNum 42; confidence := Some 0%float |});
      vm_compute; reflexivity.
Defined.

(** ** The performance status *)

Import PerformanceMonitoring.

(** C7: [getPerformanceStatus] pushes one issue per threshold breached at
    that moment (memory, render time, a measured processing speed, error
    rate, a measured frame rate), so the number of issues is the
    specification's count of breaches, and the status is good for no
    breach, warning for one or two, critical for three or more. *)
Theorem getPerformanceStatus_counts_breaches
  (thresholds : PerformanceThresholds) (m : PerformanceMetrics) :
  length (issues thresholds m) = breachedThresholds thresholds m
  /\ getPerformanceStatus thresholds m = statusOfCount (breachedThresholds thresholds m)
  /\ (getPerformanceStatus thresholds m = "good"
      <-> breachedThresholds thresholds m = 0%nat)
  /\ (getPerformanceStatus thresholds m = "warning"
      <-> (1 <= breachedThresholds thresholds m <= 2)%nat)
  /\ (getPerformanceStatus thresholds m = "critical"
      <-> (3 <= breachedThresholds thresholds m)%nat).
Proof.
  assert (Hlen : length (issues thresholds m) = breachedThresholds thresholds m).
  { unfold issues, breachedThresholds. rewrite !length_app.
    destruct (JS.gt (memoryUsage m) _), (JS.gt (renderTime m) _),
      (JS.gt (processingSpeed m) 0 && _), (JS.gt (errorRate m) _),
      (JS.gt (frameRate m) 0 && _); reflexivity. }
  assert (Hst : getPerformanceStatus thresholds m
                = statusOfCount (breachedThresholds thresholds m)).
  { unfold getPerformanceStatus. rewrite Hlen.
    destruct (breachedThresholds thresholds m) as [|[|[|n]]]; reflexivity. }
  split; [exact Hlen|]. split; [exact Hst|]. rewrite Hst.
  destruct (breachedThresholds thresholds m) as [|[|[|n]]]; simpl;
    repeat split; intros; try discriminate; try lia; auto.
Qed.

(** ** Processing speed and error rate *)

Lemma metrics_updateProcessingMetrics (NumberToString : float -> string)
  (thresholds : PerformanceThresholds) (started total processed errors now : float)
  (h : Hook) :
  metrics (updateProcessingMetrics NumberToString thresholds started total processed errors
             now h)
  = withProcessing total processed
      (speedOf processed (elapsedMinutes now started))
      (errorRateOf total errors) now (metrics h).
Proof.
  unfold updateProcessingMetrics.
  destruct (JS.gt (speedOf _ _) 0 && _), (JS.gt (errorRateOf _ _) _); reflexivity.
Qed.

(** C5, as the hook computes it.  The run's start is the start time the
    callback closed over ([started]).  The processing speed is 0 whenever
    the elapsed minutes, (now - started) / 60000, are not above zero, which
    is the case when no time has elapsed or the clock has gone back, and
    also when the quotient is NaN; otherwise it is
    [Math.round(processedRows / elapsedMinutes)].  The error rate is 0
    whenever [totalRows] is not above zero (0, a negative number, NaN), and
    otherwise [Math.round((errors / totalRows) * 100)], the quotient being
    rounded to a double before it is multiplied by 100.  At the run's start
    (100, 0, 0) gives speed 0; one minute later (100, 50, 5) gives speed 50
    and error rate 5. *)
Theorem updateProcessingMetrics_rates (NumberToString : float -> string)
  (thresholds : PerformanceThresholds) (started total processed errors now : float)
  (h : Hook) :
  (PrimFloat.leb (now - started) 0 = true ->
   processingSpeed
     (metrics (updateProcessingMetrics NumberToString thresholds started total processed
                 errors now h))
   = 0%float)
  /\ (PrimFloat.ltb 0 ((now - started) / 60000) = false ->
      processingSpeed
        (metrics (updateProcessingMetrics NumberToString thresholds started total processed
                    errors now h))
      = 0%float)
  /\ (PrimFloat.ltb 0 ((now - started) / 60000) = true ->
      processingSpeed
        (metrics (updateProcessingMetrics NumberToString thresholds started total processed
                    errors now h))
      = Math_round (processed / ((now - started) / 60000)))
  /\ (total = 0%float ->
      errorRate
        (metrics (updateProcessingMetrics NumberToString thresholds started total processed
                    errors now h))
      = 0%float)
  /\ (PrimFloat.ltb 0 total = false ->
      errorRate
        (metrics (updateProcessingMetrics NumberToString thresholds started total processed
                    errors now h))
      = 0%float)
  /\ (PrimFloat.ltb 0 total = true ->
      errorRate
        (metrics (updateProcessingMetrics NumberToString thresholds started total processed
                    errors now h))
      = Math_round ((errors / total) * 100))
  /\ processingSpeed
       (metrics (updateProcessingMetrics NumberToString thresholds 1700000000000
                   100 0 0 1700000000000
                   (initial 1700000000000 1700000000000 1700000000000)))
     = 0%float
  /\ processingSpeed
       (metrics (updateProcessingMetrics NumberToString thresholds 1700000000000
                   100 50 5 1700000060000
                   (initial 1700000000000 1700000000000 1700000000000)))
     = 50%float
  /\ errorRate
       (metrics (updateProcessingMetrics NumberToString thresholds 1700000000000
                   100 50 5 1700000060000
                   (initial 1700000000000 1700000000000 1700000000000)))
     = 5%float.
Proof.
  rewrite !metrics_updateProcessingMetrics. simpl.
  unfold speedOf, errorRateOf, elapsedMinutes.
  split; [|split; [|split; [|split; [|split; [|split; [|split; [|split]]]]]]];
    try reflexivity.
  - intros H. now rewrite (nonpositive_quotient _ H).
  - unfold JS.gt. now intros ->.
  - unfold JS.gt. now intros ->.
  - now intros ->.
  - unfold JS.gt. now intros ->.
  - unfold JS.gt. now intros ->.
Qed.

(** C5, where the written formula and the hook part: 57 errors in 200 rows.
    The hook rounds (57 / 200) * 100 = 28.499999999999996 to 28, while
    100 * 57 / 200 = 28.5 rounds to 29. *)
Lemma errorRate_rounds_product_of_quotient :
  errorRate
    (metrics (updateProcessingMetrics Examples.NumberToString DEFAULT_THRESHOLDS
                1700000000000 200 100 57 1700000060000
                (initial 1700000000000 1700000000000 1700000000000)))
  = 28%float
  /\ Math_round (100 * 57 / 200) = 29%float.
Proof. split; vm_compute; reflexivity. Qed.

(** ** The alert set *)

Lemma includes_elem_of (l : list string) (s : string) :
  includes l s = true <-> s ∈ l.
Proof.
  induction l as [|t l IH]; simpl.
  - split; [discriminate | intros H; inversion H].
  - rewrite orb_true_iff, IH, elem_of_cons, String.eqb_eq. intuition congruence.
Qed.

Lemma addAlert_present (alert : string) (prev : list string) :
  alert ∈ prev -> addAlert alert prev = prev.
Proof.
  intros H. unfold addAlert.
  apply includes_elem_of in H. now rewrite H.
Qed.

Lemma addAlert_elem_of (alert : string) (prev : list string) :
  alert ∈ addAlert alert prev.
Proof.
  unfold addAlert. destruct (includes prev alert) eqn:E.
  - now apply includes_elem_of.
  - apply elem_of_app. right. apply list_elem_of_singleton. reflexivity.
Qed.

Lemma addAlert_NoDup (alert : string) (prev : list string) :
  NoDup prev -> NoDup (addAlert alert prev).
Proof.
  intros H. unfold addAlert. destruct (includes prev alert) eqn:E; [exact H|].
  apply NoDup_app. split; [exact H|]. split.
  - intros x Hx Hx'. apply list_elem_of_singleton in Hx'. subst x.
    apply includes_elem_of in Hx. congruence.
  - apply NoDup_singleton.
Qed.

Lemma addAlert_idempotent (alert : string) (prev : list string) :
  addAlert alert (addAlert alert prev) = addAlert alert prev.
Proof. apply addAlert_present, addAlert_elem_of. Qed.

Lemma step_NoDup (NumberToString : float -> string) (thresholds : PerformanceThresholds)
  (h : Hook) (e : Event) :
  NoDup (alerts h) -> NoDup (alerts (step NumberToString thresholds h e)).
Proof.
  intros H. destruct e; simpl.
  - unfold measureMemoryUsage. destruct heap; [|exact H].
    destruct (JS.gt _ _); simpl; [apply addAlert_NoDup|]; exact H.
  - unfold measureFrameRate. destruct (JS.le _ _); [|exact H].
    destruct (JS.lt _ _); simpl; [apply addAlert_NoDup|]; exact H.
  - unfold measureRenderTime.
    destruct (JS.gt _ _); simpl; [apply addAlert_NoDup|]; exact H.
  - unfold updateProcessingMetrics.
    destruct (JS.gt (speedOf _ _) 0 && _), (JS.gt (errorRateOf _ _) _); simpl;
      repeat apply addAlert_NoDup; exact H.
  - exact H.
  - unfold observeEntry. destruct (String.eqb _ _); [|exact H].
    destruct (JS.gt _ _); simpl; [apply addAlert_NoDup|]; exact H.
  - apply NoDup_nil_2.
  - simpl. now apply NoDup_filter.
  - apply NoDup_nil_2.
Qed.

Lemma run_NoDup (NumberToString : float -> string) (thresholds : PerformanceThresholds)
  (es : list Event) (h : Hook) :
  NoDup (alerts h) -> NoDup (alerts (run NumberToString thresholds h es)).
Proof.
  revert h. induction es as [|e es IH]; intros h H; simpl; [exact H|].
  apply IH, step_NoDup, H.
Qed.

(** C6: the alert set never holds the same text twice.  Whatever sequence
    of operations the hook goes through, its alerts are pairwise distinct;
    adding a text that is already there changes nothing; a memory sample
    repeated with the same reading leaves the alerts as the first sample
    left them; two samples in a row with the same reading above the
    threshold leave exactly one alert, and so do two samples of 600MB
    against the 500MB threshold. *)
Theorem alerts_never_duplicated (NumberToString : float -> string)
  (thresholds : PerformanceThresholds) :
  (forall started updated frameOrigin es,
     NoDup (alerts (run NumberToString thresholds (initial started updated frameOrigin) es)))
  /\ (forall alert prev, alert ∈ prev -> addAlert alert prev = prev)
  /\ (forall heap now now' h,
        alerts (measureMemoryUsage NumberToString thresholds (Some heap) now'
                  (measureMemoryUsage NumberToString thresholds (Some heap) now h))
        = alerts (measureMemoryUsage NumberToString thresholds (Some heap) now h))
  /\ (forall started updated frameOrigin heap now now',
        JS.gt (heap / 1024 / 1024) (maxMemoryUsage thresholds) = true ->
        alerts (run NumberToString thresholds (initial started updated frameOrigin)
                  [MemorySample (Some heap) now; MemorySample (Some heap) now'])
        = [memoryAlert NumberToString thresholds (heap / 1024 / 1024)])
  /\ (forall started updated frameOrigin now now',
        alerts (run NumberToString DEFAULT_THRESHOLDS (initial started updated frameOrigin)
                  [MemorySample (Some (600 * 1024 * 1024)%float) now;
                   MemorySample (Some (600 * 1024 * 1024)%float) now'])
        = [memoryAlert NumberToString DEFAULT_THRESHOLDS 600]).
Proof.
  split; [|split; [|split; [|split]]].
  - intros. apply run_NoDup. apply NoDup_nil_2.
  - apply addAlert_present.
  - intros heap now now' h. unfold measureMemoryUsage.
    destruct (JS.gt _ _); simpl; [apply addAlert_idempotent | reflexivity].
  - intros started updated frameOrigin heap now now' H. simpl.
    unfold measureMemoryUsage. rewrite H. simpl.
    rewrite addAlert_idempotent. reflexivity.
  - intros. simpl. unfold measureMemoryUsage.
    change (600 * 1024 * 1024 / 1024 / 1024)%float with 600%float.
    change (JS.gt 600 (maxMemoryUsage DEFAULT_THRESHOLDS)) with true.
    simpl. rewrite addAlert_idempotent. reflexivity.
Qed.

(** ** The sort *)

(** A list in order for one relation is, reversed, in order for a relation
    that holds the other way round. *)
Lemma StronglySorted_reverse_flip {A} (R1 R2 : relation A) (l : list A) :
  (forall x y, R1 x y -> R2 y x) ->
  StronglySorted R1 l -> StronglySorted R2 (reverse l).
Proof.
  intros Hflip Hs. induction Hs as [|x l Hs IH Hall]; [constructor|].
  rewrite reverse_cons. apply StronglySorted_app_2.
  - intros y x' Hy Hx'. apply list_elem_of_singleton in Hx'. subst x'.
    rewrite elem_of_reverse in Hy. rewrite Forall_forall in Hall. auto.
  - exact IH.
  - apply SSorted_cons; [apply SSorted_nil | apply Forall_nil_2].
Qed.

(** Neighbours in order means all in order, for a relation that is
    transitive on the elements of the list. *)
Lemma Sorted_StronglySorted_on {A} (R : relation A) (l : list A) :
  (forall a b c, a ∈ l -> b ∈ l -> c ∈ l -> R a b -> R b c -> R a c) ->
  Sorted R l -> StronglySorted R l.
Proof.
  induction l as [|x l IH]; intros Ht Hs; [constructor|].
  apply Sorted_inv in Hs as [Hs Hhd].
  assert (Hl : StronglySorted R l).
  { apply IH; [|exact Hs]. intros a b c Ha Hb Hc. apply Ht; now apply elem_of_cons; right. }
  constructor; [exact Hl|].
  destruct Hl as [|y l Hl Hall]; [constructor|].
  apply HdRel_inv in Hhd. constructor; [exact Hhd|].
  rewrite Forall_forall in Hall |- *. intros z Hz.
  apply (Ht x y z); auto.
  - apply elem_of_cons; now left.
  - apply elem_of_cons; right; apply elem_of_cons; now left.
  - apply elem_of_cons; right; apply elem_of_cons; now right.
Qed.

Section SortFacts.

Context {A : Type} (cmp : A -> A -> Z).

Local Abbreviation notAfter := (JS.notAfter cmp).
Local Abbreviation transitiveOn := (JS.transitiveOn cmp).

(** *** The engine's sort rearranges, whatever the comparator *)

Lemma runTail_app (isDescending : bool) (previous : A) (l run rest : list A) :
  JS.runTail cmp isDescending previous l = (run, rest) -> l = run ++ rest.
Proof.
  revert previous run rest. induction l as [|x l IH]; intros previous run rest; simpl.
  - now intros [= <- <-].
  - destruct (if isDescending then _ else _); [now intros [= <- <-]|].
    destruct (JS.runTail cmp isDescending x l) as [run' rest'] eqn:E.
    intros [= <- <-]. simpl. f_equal. now apply (IH x).
Qed.

Lemma countAndMakeRun_Permutation (l run rest : list A) :
  JS.countAndMakeRun cmp l = (run, rest) -> run ++ rest ≡ₚ l.
Proof.
  destruct l as [|x [|y l]]; simpl; try (now intros [= <- <-]).
  destruct (JS.runTail cmp _ y l) as [run' rest'] eqn:E.
  apply runTail_app in E. subst l. intros [= <- <-].
  destruct (cmp y x <? 0); [|reflexivity].
  now rewrite reverse_Permutation.
Qed.

Lemma binaryInsert_Permutation (a : list A) (pivot : A) :
  JS.binaryInsert cmp a pivot ≡ₚ pivot :: a.
Proof.
  unfold JS.binaryInsert. rewrite <- Permutation_middle. now rewrite take_drop.
Qed.

Lemma foldl_binaryInsert_Permutation (rest acc : list A) :
  foldl (JS.binaryInsert cmp) acc rest ≡ₚ acc ++ rest.
Proof.
  revert acc. induction rest as [|x rest IH]; intros acc; simpl.
  - now rewrite app_nil_r.
  - rewrite IH, binaryInsert_Permutation. now rewrite <- Permutation_middle.
Qed.

Lemma sort_Permutation (l : list A) : JS.sort cmp l ≡ₚ l.
Proof.
  unfold JS.sort. destruct (JS.countAndMakeRun cmp l) as [run rest] eqn:E.
  rewrite foldl_binaryInsert_Permutation. now apply countAndMakeRun_Permutation.
Qed.

Lemma sort_elem_of (x : A) (l : list A) : x ∈ JS.sort cmp l <-> x ∈ l.
Proof. now rewrite sort_Permutation. Qed.

(** *** The stable sort by insertion *)

Lemma insert_split (x : A) (l : list A) :
  exists l1 l2, l = l1 ++ l2 /\ JS.insert cmp x l = l1 ++ x :: l2
                /\ Forall (fun z => 0 < cmp x z) l1.
Proof.
  induction l as [|y l IH]; simpl.
  - exists [], []. repeat split. constructor.
  - destruct (Z.leb_spec (cmp x y) 0) as [Hle|Hgt].
    + exists [], (y :: l). repeat split. constructor.
    + destruct IH as (l1 & l2 & -> & Hi & Hf).
      exists (y :: l1), l2. rewrite Hi. repeat split. now constructor.
Qed.

Lemma insert_Permutation (x : A) (l : list A) : JS.insert cmp x l ≡ₚ x :: l.
Proof.
  destruct (insert_split x l) as (l1 & l2 & -> & -> & _).
  symmetry. apply Permutation_middle.
Qed.

Lemma stableSort_Permutation (l : list A) : JS.stableSort cmp l ≡ₚ l.
Proof.
  induction l as [|x l IH]; simpl; [reflexivity|].
  now rewrite insert_Permutation, IH.
Qed.

Lemma stableSort_elem_of (x : A) (l : list A) : x ∈ JS.stableSort cmp l <-> x ∈ l.
Proof. now rewrite stableSort_Permutation. Qed.


(** Sorting what is sorted changes nothing. *)
Lemma stableSort_Sorted_id (l : list A) : Sorted notAfter l -> JS.stableSort cmp l = l.
Proof.
  induction l as [|x l IH]; simpl; intros Hs; [reflexivity|].
  apply Sorted_inv in Hs as [Hs Hhd]. rewrite (IH Hs).
  destruct l as [|y l]; simpl; [reflexivity|].
  apply HdRel_inv in Hhd. unfold JS.notAfter in Hhd.
  now destruct (Z.leb_spec (cmp x y) 0); [|lia].
Qed.

Lemma consistent_transitiveOn (l : list A) :
  JS.consistent cmp l = true -> transitiveOn l.
Proof.
  unfold JS.consistent, JS.transitiveOn, JS.notAfter. intros H a b c Ha Hb Hc Hab Hbc.
  rewrite forallb_forall in H.
  specialize (H a (proj1 (list_elem_of_In _ _) Ha)).
  rewrite forallb_forall in H.
  specialize (H b (proj1 (list_elem_of_In _ _) Hb)).
  rewrite forallb_forall in H.
  specialize (H c (proj1 (list_elem_of_In _ _) Hc)).
  apply Z.leb_le in Hab, Hbc. rewrite Hab, Hbc in H. simpl in H.
  now apply Z.leb_le.
Qed.

Lemma transitiveOn_subseteq (l k : list A) :
  (forall x, x ∈ k -> x ∈ l) -> transitiveOn l -> transitiveOn k.
Proof. intros Hsub Ht a b c Ha Hb Hc. apply Ht; auto. Qed.

Lemma transitiveOn_Permutation (l k : list A) :
  l ≡ₚ k -> transitiveOn l -> transitiveOn k.
Proof. intros Hp. apply transitiveOn_subseteq. intros x. now rewrite Hp. Qed.

(** Facts that need the comparator to give opposite results to the two
    orders of a pair. *)
Hypothesis cmp_opp : forall x y, cmp y x = - cmp x y.

Lemma cmp_antisym (x y : A) : 0 < cmp x y -> cmp y x <= 0.
Proof. rewrite (cmp_opp x y). lia. Qed.

Lemma insert_StronglySorted (x : A) (s : list A) :
  transitiveOn (x :: s) -> StronglySorted notAfter s ->
  StronglySorted notAfter (JS.insert cmp x s).
Proof.
  induction s as [|y s IH]; simpl; intros Ht Hs.
  - repeat constructor.
  - apply StronglySorted_inv in Hs as [Hs Hall].
    destruct (Z.leb_spec (cmp x y) 0) as [Hle|Hgt].
    + constructor; [now constructor|].
      constructor; [exact Hle|].
      rewrite Forall_forall in Hall |- *. intros z Hz.
      apply (Ht x y z); try exact Hle; auto.
      * apply elem_of_cons; now left.
      * apply elem_of_cons; right; apply elem_of_cons; now left.
      * apply elem_of_cons; right; apply elem_of_cons; now right.
    + constructor.
      * apply IH; [|exact Hs].
        apply (transitiveOn_subseteq (x :: y :: s)); [|exact Ht].
        intros z Hz. apply elem_of_cons in Hz as [->|Hz].
        -- apply elem_of_cons; now left.
        -- apply elem_of_cons; right; apply elem_of_cons; now right.
      * rewrite Forall_forall in Hall |- *. intros z Hz.
        rewrite insert_Permutation in Hz.
        apply elem_of_cons in Hz as [->|Hz]; [now apply cmp_antisym | auto].
Qed.

Lemma stableSort_StronglySorted (l : list A) :
  transitiveOn l -> StronglySorted notAfter (JS.stableSort cmp l).
Proof.
  induction l as [|x l IH]; simpl; intros Ht; [constructor|].
  apply insert_StronglySorted.
  - apply (transitiveOn_subseteq (x :: l)); [|exact Ht].
    intros z Hz. apply elem_of_cons in Hz as [->|Hz].
    + apply elem_of_cons; now left.
    + apply elem_of_cons; right. now apply stableSort_elem_of.
  - apply IH. apply (transitiveOn_subseteq (x :: l)); [|exact Ht].
    intros z Hz. apply elem_of_cons; now right.
Qed.

Lemma StronglySorted_sublist (l : list A) (x y : A) :
  StronglySorted notAfter l -> [x; y] `sublist_of` l -> notAfter x y.
Proof.
  induction l as [|a l IH]; intros Hs Hxy.
  - apply sublist_nil_r in Hxy. discriminate.
  - apply StronglySorted_inv in Hs as [Hs Hall].
    apply sublist_cons_r in Hxy as [Hxy | (l' & [= -> <-] & Hy)]; [auto|].
    apply singleton_sublist_l in Hy.
    rewrite Forall_forall in Hall. auto.
Qed.

(** *** With a consistent comparator the engine's sort is the stable sort *)

(** What is strictly before something that is not after a third is strictly
    before the third, and likewise on the other side. *)
Lemma before_notAfter (x y z : A) :
  transitiveOn [x; y; z] -> cmp x y < 0 -> cmp y z <= 0 -> cmp x z < 0.
Proof.
  intros Ht Hxy Hyz.
  destruct (Z.lt_ge_cases (cmp x z) 0) as [H|H]; [exact H|]. exfalso.
  assert (Hyx : notAfter y x).
  { apply (Ht y z x); unfold JS.notAfter; rewrite ?elem_of_cons; auto.
    rewrite (cmp_opp x z). lia. }
  unfold JS.notAfter in Hyx. rewrite (cmp_opp x y) in Hyx. lia.
Qed.

Lemma notAfter_before (x y z : A) :
  transitiveOn [x; y; z] -> cmp x y <= 0 -> cmp y z < 0 -> cmp x z < 0.
Proof.
  intros Ht Hxy Hyz.
  destruct (Z.lt_ge_cases (cmp x z) 0) as [H|H]; [exact H|]. exfalso.
  assert (Hzy : notAfter z y).
  { apply (Ht z x y); unfold JS.notAfter; rewrite ?elem_of_cons; auto.
    rewrite (cmp_opp x z). lia. }
  unfold JS.notAfter in Hzy. rewrite (cmp_opp y z) in Hzy. lia.
Qed.

Ltac within Ht :=
  refine (transitiveOn_subseteq _ _ _ Ht);
  let z := fresh "z" in
  intros z;
  repeat (rewrite elem_of_app || rewrite elem_of_cons || rewrite elem_of_nil);
  tauto.

(** Two neighbours that are out of order can be exchanged without a change
    to the stable order. *)
Lemma insert_swap (a b : A) (s : list A) :
  0 < cmp a b -> transitiveOn (a :: b :: s) ->
  JS.insert cmp a (JS.insert cmp b s) = JS.insert cmp b (JS.insert cmp a s).
Proof.
  intros Hab. assert (Hba : cmp b a < 0) by (rewrite (cmp_opp a b); lia).
  induction s as [|y s IH]; intros Ht; simpl.
  - destruct (Z.leb_spec (cmp a b) 0); [lia|].
    destruct (Z.leb_spec (cmp b a) 0); [reflexivity | lia].
  - destruct (Z.leb_spec (cmp b y) 0) as [Hby|Hby]; simpl.
    + destruct (Z.leb_spec (cmp a b) 0); [lia|].
      destruct (Z.leb_spec (cmp a y) 0) as [Hay|Hay]; simpl.
      * destruct (Z.leb_spec (cmp b a) 0); [reflexivity | lia].
      * destruct (Z.leb_spec (cmp b y) 0); [reflexivity | lia].
    + assert (Hay : 0 < cmp a y).
      { assert (H : cmp y a < 0); [|rewrite (cmp_opp y a); lia].
        apply (before_notAfter y b a); [within Ht| |lia].
        rewrite (cmp_opp b y). lia. }
      destruct (Z.leb_spec (cmp a y) 0); [lia|]. simpl.
      destruct (Z.leb_spec (cmp b y) 0); [lia|].
      f_equal. apply IH. within Ht.
Qed.

Lemma stableSort_swap (pre : list A) (a b : A) (post : list A) :
  0 < cmp a b -> transitiveOn (pre ++ a :: b :: post) ->
  JS.stableSort cmp (pre ++ a :: b :: post) = JS.stableSort cmp (pre ++ b :: a :: post).
Proof.
  intros Hab. induction pre as [|x pre IH]; intros Ht; simpl.
  - apply insert_swap; [exact Hab|].
    apply (transitiveOn_subseteq (a :: b :: post)); [|exact Ht].
    intros z. rewrite !elem_of_cons, stableSort_elem_of. tauto.
  - f_equal. apply IH. within Ht.
Qed.

(** An element can be moved to the right past elements it is strictly
    after, and to the left past elements that are strictly after it. *)
Lemma stableSort_move_right (gs pre : list A) (a : A) (post : list A) :
  Forall (fun g => 0 < cmp a g) gs -> transitiveOn (pre ++ a :: gs ++ post) ->
  JS.stableSort cmp (pre ++ a :: gs ++ post) = JS.stableSort cmp (pre ++ gs ++ a :: post).
Proof.
  revert pre. induction gs as [|g gs IH]; intros pre Hall Ht; [reflexivity|].
  apply Forall_cons in Hall as [Hg Hall]. simpl.
  rewrite (stableSort_swap pre a g (gs ++ post) Hg Ht).
  change (pre ++ g :: a :: gs ++ post) with (pre ++ [g] ++ a :: gs ++ post).
  change (pre ++ g :: gs ++ a :: post) with (pre ++ [g] ++ gs ++ a :: post).
  rewrite !(app_assoc pre [g]). apply IH; [exact Hall|]. within Ht.
Qed.

Lemma stableSort_move_left (gs pre : list A) (p : A) (post : list A) :
  Forall (fun g => 0 < cmp g p) gs -> transitiveOn (pre ++ gs ++ p :: post) ->
  JS.stableSort cmp (pre ++ gs ++ p :: post) = JS.stableSort cmp (pre ++ p :: gs ++ post).
Proof.
  revert pre. induction gs as [|g gs IH]; intros pre Hall Ht; [reflexivity|].
  apply Forall_cons in Hall as [Hg Hall]. simpl.
  change (pre ++ g :: gs ++ p :: post) with (pre ++ [g] ++ gs ++ p :: post).
  rewrite (app_assoc pre [g]), IH; [|exact Hall|within Ht].
  rewrite <- (app_assoc pre [g]). simpl.
  apply stableSort_swap; [exact Hg|]. within Ht.
Qed.

(** The initial run. *)
Lemma runTail_descending (previous : A) (l run rest : list A) :
  JS.runTail cmp true previous l = (run, rest) ->
  Sorted (fun x y => cmp y x < 0) (previous :: run).
Proof.
  revert previous run rest. induction l as [|x l IH]; intros previous run rest; simpl.
  - intros [= <- <-]. repeat constructor.
  - destruct (Z.leb_spec 0 (cmp x previous)) as [H|H].
    + intros [= <- <-]. repeat constructor.
    + destruct (JS.runTail cmp true x l) as [run' rest'] eqn:E.
      intros [= <- <-]. constructor; [now apply (IH x run' rest')|now constructor].
Qed.

Lemma runTail_ascending (previous : A) (l run rest : list A) :
  JS.runTail cmp false previous l = (run, rest) ->
  Sorted notAfter (previous :: run).
Proof.
  revert previous run rest. induction l as [|x l IH]; intros previous run rest; simpl.
  - intros [= <- <-]. repeat constructor.
  - destruct (Z.ltb_spec (cmp x previous) 0) as [H|H].
    + intros [= <- <-]. repeat constructor.
    + destruct (JS.runTail cmp false x l) as [run' rest'] eqn:E.
      intros [= <- <-]. constructor; [now apply (IH x run' rest')|].
      constructor. unfold JS.notAfter. rewrite (cmp_opp x previous). lia.
Qed.

Lemma stableSort_reverse_descending (run rest : list A) :
  StronglySorted (fun x y => cmp y x < 0) run -> transitiveOn (run ++ rest) ->
  JS.stableSort cmp (reverse run ++ rest) = JS.stableSort cmp (run ++ rest).
Proof.
  intros Hs. revert rest. induction Hs as [|x run Hs IH Hall]; intros rest Ht; [reflexivity|].
  rewrite reverse_cons, <- app_assoc. simpl.
  rewrite IH by within Ht.
  symmetry. apply (stableSort_move_right run [] x rest); [|exact Ht].
  eapply Forall_impl; [exact Hall|]. intros g Hg. simpl in Hg.
  rewrite (cmp_opp g x). lia.
Qed.

Lemma countAndMakeRun_spec (l run rest : list A) :
  transitiveOn l -> JS.countAndMakeRun cmp l = (run, rest) ->
  StronglySorted notAfter run
  /\ JS.stableSort cmp (run ++ rest) = JS.stableSort cmp l.
Proof.
  intros Ht. destruct l as [|x [|y l]]; simpl.
  - intros [= <- <-]. split; [constructor | reflexivity].
  - intros [= <- <-]. split; [repeat constructor | reflexivity].
  - destruct (JS.runTail cmp _ y l) as [run' rest'] eqn:E.
    pose proof (runTail_app _ _ _ _ _ E) as Hl. subst l.
    intros [= <- <-].
    destruct (Z.ltb_spec (cmp y x) 0) as [Hyx|Hyx].
    + assert (Hs : StronglySorted (fun a b => cmp b a < 0) (x :: y :: run')).
      { apply Sorted_StronglySorted_on.
        - intros a b c Ha Hb Hc Hab Hbc.
          apply (notAfter_before c b a); [|lia|exact Hab].
          refine (transitiveOn_subseteq _ _ _ Ht).
          intros z. rewrite !elem_of_cons, elem_of_nil.
          intros [->|[->|[->|[]]]]; revert Ha Hb Hc;
            rewrite !elem_of_cons, ?elem_of_app; tauto.
        - constructor; [exact (runTail_descending y _ run' rest' E)|now constructor]. }
      split.
      * apply (StronglySorted_reverse_flip (fun a b => cmp b a < 0)); [|exact Hs].
        intros a b H. unfold JS.notAfter. lia.
      * now apply (stableSort_reverse_descending (x :: y :: run') rest').
    + split; [|reflexivity].
      apply Sorted_StronglySorted_on.
      * intros a b c Ha Hb Hc. apply Ht; revert Ha Hb Hc;
          rewrite !elem_of_cons, ?elem_of_app; tauto.
      * constructor; [exact (runTail_ascending y _ run' rest' E)|].
        constructor. unfold JS.notAfter. rewrite (cmp_opp y x). lia.
Qed.

(** Binary insertion. *)
Lemma insertionPoint_spec (pivot : A) (a : list A) (fuel left right : nat) :
  StronglySorted notAfter a -> transitiveOn (pivot :: a) ->
  (right - left <= fuel)%nat -> (left <= right <= length a)%nat ->
  Forall (fun z => 0 <= cmp pivot z) (take left a) ->
  Forall (fun z => cmp pivot z < 0) (drop right a) ->
  Forall (fun z => 0 <= cmp pivot z) (take (JS.insertionPoint fuel cmp pivot a left right) a)
  /\ Forall (fun z => cmp pivot z < 0)
       (drop (JS.insertionPoint fuel cmp pivot a left right) a).
Proof.
  intros Hs Ht. revert left right.
  induction fuel as [|fuel IH]; intros left right Hfuel Hlr Hleft Hright;
    cbn [JS.insertionPoint].
  - replace right with left in Hright by lia. now split.
  - destruct (Nat.ltb_spec left right) as [Hlt|Hge];
      [|replace right with left in Hright by lia; now split].
    pose proof (Nat.div_mod_eq (right - left) 2) as Hdiv.
    pose proof (Nat.mod_upper_bound (right - left) 2 ltac:(lia)) as Hmod.
    set (mid := (left + (right - left) / 2)%nat) in *.
    assert (Hmid : (left <= mid < right)%nat) by (unfold mid; lia).
    destruct (lookup_lt_is_Some_2 a mid ltac:(lia)) as [y Hy]. rewrite Hy.
    pose proof (take_drop_middle a mid y Hy) as Ha.
    rewrite <- Ha in Hs.
    destruct (Z.ltb_spec (cmp pivot y) 0) as [Hpy|Hpy].
    + apply IH; [lia | lia | exact Hleft |].
      rewrite (drop_S a y mid Hy). constructor; [exact Hpy|].
      apply StronglySorted_app_1_r, StronglySorted_inv in Hs as [_ Hall].
      rewrite Forall_forall in Hall |- *. intros z Hz.
      apply (before_notAfter pivot y z); [|exact Hpy|now apply Hall].
      apply (transitiveOn_subseteq (pivot :: a)); [|exact Ht].
      intros w. rewrite !elem_of_cons, elem_of_nil. intros [->|[->|[->|[]]]]; auto.
      * right. now apply list_elem_of_lookup_2 in Hy.
      * right. rewrite <- Ha. rewrite elem_of_app, elem_of_cons. auto.
    + apply IH; [lia | lia | | exact Hright].
      replace (mid + 1)%nat with (S mid) by lia.
      rewrite (take_S_r a mid y Hy). apply Forall_app. split; [|now repeat constructor].
      rewrite Forall_forall. intros z Hz.
      assert (Hzy : notAfter z y).
      { apply (StronglySorted_app_1_elem_of _ _ _ z y Hs Hz). apply elem_of_cons. now left. }
      assert (H : cmp z pivot <= 0); [|rewrite (cmp_opp z pivot); lia].
      apply (Ht z y pivot); unfold JS.notAfter; rewrite ?elem_of_cons; auto.
      * right. rewrite <- Ha. rewrite elem_of_app. auto.
      * right. now apply list_elem_of_lookup_2 in Hy.
      * rewrite (cmp_opp pivot y). lia.
Qed.

Lemma binaryInsert_spec (a : list A) (pivot : A) (post : list A) :
  StronglySorted notAfter a -> transitiveOn (a ++ pivot :: post) ->
  StronglySorted notAfter (JS.binaryInsert cmp a pivot)
  /\ JS.stableSort cmp (JS.binaryInsert cmp a pivot ++ post)
     = JS.stableSort cmp (a ++ pivot :: post).
Proof.
  intros Hs Ht. unfold JS.binaryInsert.
  destruct (insertionPoint_spec pivot a (length a) 0 (length a)) as [Hleft Hright];
    [exact Hs | within Ht | lia | lia | constructor | rewrite drop_all; constructor |].
  set (p := JS.insertionPoint (length a) cmp pivot a 0 (length a)) in *.
  pose proof (take_drop p a) as Ha.
  split.
  - rewrite <- Ha in Hs. apply StronglySorted_app_2.
    + intros x1 x2 H1 H2. apply elem_of_cons in H2 as [->|H2].
      * rewrite Forall_forall in Hleft. specialize (Hleft _ H1).
        unfold JS.notAfter. rewrite (cmp_opp pivot x1). lia.
      * now apply (StronglySorted_app_1_elem_of _ _ _ x1 x2 Hs).
    + now apply StronglySorted_app_1_l in Hs.
    + constructor; [now apply StronglySorted_app_1_r in Hs|].
      eapply Forall_impl; [exact Hright|]. intros z Hz. unfold JS.notAfter. simpl in Hz. lia.
  - rewrite <- Ha at 3. rewrite <- !app_assoc. simpl.
    symmetry. apply stableSort_move_left.
    + eapply Forall_impl; [exact Hright|]. intros z Hz. simpl in Hz.
      rewrite (cmp_opp pivot z). lia.
    + rewrite app_assoc, Ha. exact Ht.
Qed.

Lemma foldl_binaryInsert_spec (rest acc : list A) :
  StronglySorted notAfter acc -> transitiveOn (acc ++ rest) ->
  StronglySorted notAfter (foldl (JS.binaryInsert cmp) acc rest)
  /\ JS.stableSort cmp (foldl (JS.binaryInsert cmp) acc rest)
     = JS.stableSort cmp (acc ++ rest).
Proof.
  revert acc. induction rest as [|x rest IH]; intros acc Hs Ht; simpl.
  - now rewrite app_nil_r.
  - destruct (binaryInsert_spec acc x rest Hs Ht) as [Hs' He].
    destruct (IH (JS.binaryInsert cmp acc x) Hs') as [Hs'' He'].
    + apply (transitiveOn_Permutation (acc ++ x :: rest)); [|exact Ht].
      rewrite binaryInsert_Permutation. symmetry. apply Permutation_middle.
    + split; [exact Hs''|]. now rewrite He', He.
Qed.

(** The engine's sort: its outcome is in order, and it is the stable order. *)
Lemma sort_StronglySorted_stableSort (l : list A) :
  transitiveOn l ->
  StronglySorted notAfter (JS.sort cmp l) /\ JS.sort cmp l = JS.stableSort cmp l.
Proof.
  intros Ht. unfold JS.sort.
  destruct (JS.countAndMakeRun cmp l) as [run rest] eqn:E.
  destruct (countAndMakeRun_spec l run rest Ht E) as [Hs He].
  destruct (foldl_binaryInsert_spec rest run Hs) as [Hs' He'].
  { apply (transitiveOn_Permutation l); [|exact Ht].
    symmetry. now apply countAndMakeRun_Permutation. }
  split; [exact Hs'|].
  rewrite <- He, <- He'. symmetry. apply stableSort_Sorted_id.
  now apply StronglySorted_Sorted.
Qed.


Lemma sort_StronglySorted (l : list A) :
  transitiveOn l -> StronglySorted notAfter (JS.sort cmp l).
Proof. intros Ht. now apply sort_StronglySorted_stableSort. Qed.



End SortFacts.

(** Positions and the "before" relation. *)
Lemma lookup_sublist {A} (l : list A) (i j : nat) (x y : A) :
  (i < j)%nat -> l !! i = Some x -> l !! j = Some y -> [x; y] `sublist_of` l.
Proof.
  revert i j. induction l as [|a l IH]; intros i j Hij Hi Hj; [discriminate|].
  destruct i as [|i], j as [|j]; simpl in *; try lia.
  - injection Hi as ->. apply sublist_skip, singleton_sublist_l.
    now apply list_elem_of_lookup_2 in Hj.
  - apply sublist_cons. apply (IH i j); [lia | assumption | assumption].
Qed.


(** The sort knows its comparator only by the results of the comparisons. *)
Lemma runTail_ext {A} (cmp cmp' : A -> A -> Z) (d : bool) (previous : A) (l : list A) :
  (forall x y, cmp x y = cmp' x y) -> JS.runTail cmp d previous l = JS.runTail cmp' d previous l.
Proof.
  intros H. revert previous. induction l as [|x l IH]; intros previous; simpl; [reflexivity|].
  now rewrite H, IH.
Qed.

Lemma insertionPoint_ext {A} (cmp cmp' : A -> A -> Z) (fuel : nat) (pivot : A)
  (a : list A) (left right : nat) :
  (forall x y, cmp x y = cmp' x y) ->
  JS.insertionPoint fuel cmp pivot a left right
  = JS.insertionPoint fuel cmp' pivot a left right.
Proof.
  intros H. revert left right. induction fuel as [|fuel IH]; intros left right; simpl;
    [reflexivity|].
  destruct (left <? right)%nat; [|reflexivity].
  destruct (a !! _); [|reflexivity]. now rewrite H, !IH.
Qed.

Lemma sort_ext {A} (cmp cmp' : A -> A -> Z) (l : list A) :
  (forall x y, cmp x y = cmp' x y) -> JS.sort cmp l = JS.sort cmp' l.
Proof.
  intros H. unfold JS.sort.
  assert (Hrun : JS.countAndMakeRun cmp l = JS.countAndMakeRun cmp' l).
  { destruct l as [|x [|y l]]; simpl; try reflexivity.
    now rewrite H, (runTail_ext cmp cmp' _ _ _ H). }
  rewrite Hrun. clear Hrun. destruct (JS.countAndMakeRun cmp' l) as [run rest].
  revert run. induction rest as [|x rest IH]; intros run; simpl; [reflexivity|].
  rewrite <- IH. f_equal. unfold JS.binaryInsert.
  now rewrite (insertionPoint_ext cmp cmp' _ _ _ _ _ H).
Qed.

(** ** The row comparator *)

Lemma String_ltb_asym (s t : string) : String.ltb s t = true -> String.ltb t s = false.
Proof.
  unfold String.ltb. rewrite (String.compare_antisym t s).
  now destruct (String.compare s t).
Qed.

Lemma IsLessThan_asym (StringToNumber : string -> float) (a b : Value) :
  IsLessThan StringToNumber a b = true -> IsLessThan StringToNumber b a = false.
Proof.
  unfold IsLessThan.
  destruct (ToPrimitive a), (ToPrimitive b);
    first [apply String_ltb_asym | apply lt_asym].
Qed.

Section Comparator.

Variable StringToNumber : string -> float.
Variable rows : list CSVRow.
Variable results : gmap Z RowEnrichmentResult.
Variable emailColumn : option string.
Variable cfg : SortConfig.

Local Abbreviation cmp := (compareRows StringToNumber rows results emailColumn cfg).

Lemma compareRows_antisym (a b : CSVRow) : 0 < cmp a b -> cmp b a <= 0.
Proof.
  unfold compareRows.
  destruct (IsLessThan _ (sortValue _ _ _ cfg a) (sortValue _ _ _ cfg b)) eqn:Eab;
    destruct (IsLessThan _ (sortValue _ _ _ cfg b) (sortValue _ _ _ cfg a)) eqn:Eba;
    destruct (direction cfg); try lia;
    apply IsLessThan_asym in Eab; congruence.
Qed.

Lemma compareRows_opp (a b : CSVRow) : cmp b a = - cmp a b.
Proof.
  unfold compareRows.
  destruct (IsLessThan _ (sortValue _ _ _ cfg a) (sortValue _ _ _ cfg b)) eqn:Eab;
    destruct (IsLessThan _ (sortValue _ _ _ cfg b) (sortValue _ _ _ cfg a)) eqn:Eba;
    destruct (direction cfg); try reflexivity;
    apply IsLessThan_asym in Eab; congruence.
Qed.


(** Rows that are distinct objects are found by [indexOf] where they are. *)
Lemma indexOf_from_lookup (l : list CSVRow) (a : CSVRow) (i : nat) (k : Z) :
  NoDup (ref <$> l) -> l !! i = Some a ->
  indexOf_from same_row l a k = k + Z.of_nat i.
Proof.
  revert i k. induction l as [|b l IH]; intros i k Hnd Hi; [discriminate|].
  simpl in Hnd. apply NoDup_cons in Hnd as [Hb Hnd].
  destruct i as [|i]; simpl in *.
  - injection Hi as ->. unfold same_row. rewrite Nat.eqb_refl. lia.
  - unfold same_row at 1. destruct (Nat.eqb_spec (ref b) (ref a)) as [E|_].
    + exfalso. apply Hb. rewrite E.
      apply list_elem_of_fmap_2. now apply list_elem_of_lookup_2 in Hi.
    + rewrite (IH i (k + 1) Hnd Hi). lia.
Qed.

Lemma rowIndexOf_lookup (a : CSVRow) (i : nat) :
  NoDup (ref <$> rows) -> rows !! i = Some a -> rowIndexOf rows a = Z.of_nat i.
Proof. intros Hnd Hi. unfold rowIndexOf, indexOf. now rewrite (indexOf_from_lookup _ _ i). Qed.




(** With a consistent comparator, a row that compares strictly below
    another one is shown before it. *)
Lemma sortedData_below_first (i j : nat) (a b : CSVRow) :
  JS.consistent cmp rows = true ->
  sortedData StringToNumber rows results emailColumn (Some cfg) !! i = Some a ->
  sortedData StringToNumber rows results emailColumn (Some cfg) !! j = Some b ->
  cmp a b < 0 ->
  (i < j)%nat.
Proof.
  intros Hc Hi Hj Hab.
  destruct (Nat.lt_trichotomy i j) as [Hlt|[Heq|Hgt]]; [exact Hlt| |].
  - subst j. rewrite Hi in Hj. injection Hj as <-.
    pose proof (compareRows_opp a a). lia.
  - exfalso.
    assert (Hs : StronglySorted (JS.notAfter cmp)
                   (sortedData StringToNumber rows results emailColumn (Some cfg))).
    { apply sort_StronglySorted; [apply compareRows_opp|].
      now apply consistent_transitiveOn. }
    pose proof (StronglySorted_sublist cmp _ b a Hs
                  (lookup_sublist _ j i b a Hgt Hj Hi)) as H.
    unfold JS.notAfter in H. rewrite (compareRows_opp a b) in H. lia.
Qed.

End Comparator.

(** ** Sorting is idempotent and stable *)




(** Binary insertion at work on an inconsistent comparator: nothing on row
    0, -1 on rows 1 and 3, the text N/A on row 2.  The first two rows are a
    descending run and are exchanged, row 2 is put after them, and row 3
    goes between rows 1 and 0, ahead of row 2, with which it compares
    equal. *)
Example mixed_keys_binary_insertion :
  displayOrder Examples.StringToNumber Examples.fourRows
    (<[ 1 := Examples.valued (VNum (-1)) ]>
       (<[ 2 := Examples.valued (VStr "N/A") ]> {[ 3 := Examples.valued (VNum (-1)) ]}))
    None (Some Examples.byScore)
  = [1; 3; 0; 2].
Proof. vm_compute. reflexivity. Qed.

(** ** Sorting by a field *)

Section FieldSort.

Variable StringToNumber : string -> float.
Hypothesis StringToNumber_empty : StringToNumber "" = 0%float.

Variable rows : list CSVRow.
Variable results : gmap Z RowEnrichmentResult.
Variable emailColumn : option string.
Variable cfg : SortConfig.

Hypothesis distinct_rows : NoDup (ref <$> rows).
Hypothesis field_key : key cfg <> "email".
Hypothesis ascending : direction cfg = asc.

Local Abbreviation cmp := (compareRows StringToNumber rows results emailColumn cfg).
Local Abbreviation sorted := (sortedData StringToNumber rows results emailColumn (Some cfg)).


Lemma compareRows_empty_below (a b : CSVRow) :
  sortValue rows results emailColumn cfg a = VStr "" ->
  IsLessThan StringToNumber (VStr "") (sortValue rows results emailColumn cfg b) = true ->
  cmp a b = -1 /\ cmp b a = 1.
Proof.
  intros Ha Hb. unfold compareRows.
  rewrite Ha, Hb, (IsLessThan_asym _ _ _ Hb), ascending.
  now split.
Qed.

(** A row whose key is the empty string is shown before every row whose key
    compares above it and after every row whose key compares below it. *)
Lemma empty_key_first (i j : nat) (a b : CSVRow) :
  JS.consistent cmp rows = true ->
  sorted !! i = Some a -> sorted !! j = Some b ->
  sortValue rows results emailColumn cfg a = VStr "" ->
  IsLessThan StringToNumber (VStr "") (sortValue rows results emailColumn cfg b) = true ->
  (i < j)%nat.
Proof.
  intros Hc Hi Hj Ha Hb.
  destruct (compareRows_empty_below a b Ha Hb) as [Hab _].
  apply (sortedData_below_first StringToNumber rows results emailColumn cfg i j a b);
    [assumption | assumption | assumption | lia].
Qed.

Lemma empty_key_last (i j : nat) (a b : CSVRow) :
  JS.consistent cmp rows = true ->
  sorted !! i = Some a -> sorted !! j = Some b ->
  sortValue rows results emailColumn cfg a = VStr "" ->
  IsLessThan StringToNumber (sortValue rows results emailColumn cfg b) (VStr "") = true ->
  (j < i)%nat.
Proof.
  intros Hc Hi Hj Ha Hb.
  apply (sortedData_below_first StringToNumber rows results emailColumn cfg j i b a);
    [assumption | assumption | assumption |].
  unfold compareRows. rewrite Ha, Hb, ascending. lia.
Qed.


(** The key of a row whose result holds a value for the field. *)
Lemma sortValue_stored (j : nat) (b : CSVRow) (rb : RowEnrichmentResult)
  (eb : EnrichmentResult) :
  rows !! j = Some b -> results !! Z.of_nat j = Some rb ->
  enrichments rb !! key cfg = Some eb ->
  sortValue rows results emailColumn cfg b = or (value eb) (VStr "").
Proof.
  intros Hb Hrb Heb. unfold sortValue.
  destruct (String.eqb_spec (key cfg) "email") as [E|_]; [contradiction|].
  rewrite (rowIndexOf_lookup rows b j distinct_rows Hb), Hrb. simpl. now rewrite Heb.
Qed.

Lemma positive_above_empty (x : float) :
  JS.lt 0 x = true ->
  or (VNum x) (VStr "") = VNum x
  /\ IsLessThan StringToNumber (VStr "") (VNum x) = true.
Proof.
  intros H. unfold or. simpl. rewrite truthyNumber_lt, H, orb_true_r.
  split; [reflexivity|]. unfold IsLessThan. simpl. now rewrite StringToNumber_empty.
Qed.

Lemma negative_below_empty (x : float) :
  JS.lt x 0 = true ->
  or (VNum x) (VStr "") = VNum x
  /\ IsLessThan StringToNumber (VNum x) (VStr "") = true.
Proof.
  intros H. unfold or. simpl. rewrite truthyNumber_lt, H.
  split; [reflexivity|]. unfold IsLessThan. simpl. now rewrite StringToNumber_empty.
Qed.

Lemma nonempty_above_empty (s : string) :
  s <> "" ->
  or (VStr s) (VStr "") = VStr s
  /\ IsLessThan StringToNumber (VStr "") (VStr s) = true.
Proof.
  intros H. unfold or. simpl.
  destruct (String.eqb_spec s "") as [E|_]; [contradiction|].
  split; [reflexivity|]. unfold IsLessThan. simpl. now destruct s.
Qed.



End FieldSort.







(** ** Falsy values sort as absent ones *)

Lemma or_falsy (v : Value) : truthy v = false -> or v (VStr "") = VStr "".
Proof. intros H. unfold or. now rewrite H. Qed.

Section Falsy.

Variable StringToNumber : string -> float.
Variable rows : list CSVRow.
Variable results : gmap Z RowEnrichmentResult.
Variable emailColumn : option string.
Variable cfg : SortConfig.
Variable i : nat.
Variable r : RowEnrichmentResult.
Variable e : EnrichmentResult.

Hypothesis field_key : key cfg <> "email".
Hypothesis result_i : results !! Z.of_nat i = Some r.
Hypothesis field_i : enrichments r !! key cfg = Some e.
Hypothesis falsy : truthy (value e) = false.

(** The store in which the row's result lacks the field, and the store in
    which the row has no result at all. *)
Local Abbreviation withoutField :=
  (<[ Z.of_nat i := {| status := status r;
                       enrichments := delete (key cfg) (enrichments r) |} ]> results).
Local Abbreviation withoutResult := (delete (Z.of_nat i) results).

Lemma sortValue_withoutResult (b : CSVRow) :
  sortValue rows results emailColumn cfg b
  = sortValue rows withoutResult emailColumn cfg b.
Proof.
  unfold sortValue.
  destruct (String.eqb_spec (key cfg) "email") as [E|_]; [contradiction|].
  destruct (decide (Z.of_nat i = rowIndexOf rows b)) as [<-|Hne].
  - rewrite result_i, lookup_delete_eq. simpl. rewrite field_i.
    now rewrite (or_falsy _ falsy).
  - now rewrite lookup_delete_ne.
Qed.

Lemma sortValue_withoutField (b : CSVRow) :
  sortValue rows results emailColumn cfg b
  = sortValue rows withoutField emailColumn cfg b.
Proof.
  unfold sortValue.
  destruct (String.eqb_spec (key cfg) "email") as [E|_]; [contradiction|].
  destruct (decide (Z.of_nat i = rowIndexOf rows b)) as [<-|Hne].
  - rewrite result_i, lookup_insert_eq. simpl. rewrite field_i, lookup_delete_eq.
    now rewrite (or_falsy _ falsy).
  - now rewrite lookup_insert_ne.
Qed.

Lemma compareRows_withoutResult (b c : CSVRow) :
  compareRows StringToNumber rows results emailColumn cfg b c
  = compareRows StringToNumber rows withoutResult emailColumn cfg b c.
Proof. unfold compareRows. now rewrite !sortValue_withoutResult. Qed.

Lemma compareRows_withoutField (b c : CSVRow) :
  compareRows StringToNumber rows results emailColumn cfg b c
  = compareRows StringToNumber rows withoutField emailColumn cfg b c.
Proof. unfold compareRows. now rewrite !sortValue_withoutField. Qed.

Lemma sortedData_withoutResult :
  sortedData StringToNumber rows results emailColumn (Some cfg)
  = sortedData StringToNumber rows withoutResult emailColumn (Some cfg).
Proof. simpl. apply sort_ext. apply compareRows_withoutResult. Qed.

Lemma sortedData_withoutField :
  sortedData StringToNumber rows results emailColumn (Some cfg)
  = sortedData StringToNumber rows withoutField emailColumn (Some cfg).
Proof. simpl. apply sort_ext. apply compareRows_withoutField. Qed.

End Falsy.

(** C8, as the component sorts.  In a sort by a field, a falsy value (0,
    false and the empty string are falsy) is replaced by the empty string
    just as an absent one is: the row's key is the empty string, every
    comparison comes out as it does when the row has no result at all, and
    the sorted rows are the same whether the row's result holds the falsy
    value, lacks the field, or is missing altogether.  Where that common
    position lies depends on the other keys: in an ascending sort with a
    consistent comparator the row is shown before every row whose value is
    a positive number or a non-empty string, and after every row whose
    value is a negative number, the empty string counting as 0 against a
    number. *)
Theorem falsy_value_sorts_as_absent (StringToNumber : string -> float)
  (rows : list CSVRow) (results : gmap Z RowEnrichmentResult)
  (emailColumn : option string) (cfg : SortConfig)
  (i : nat) (a : CSVRow) (r : RowEnrichmentResult) (e : EnrichmentResult) :
  StringToNumber "" = 0%float ->
  NoDup (ref <$> rows) ->
  key cfg <> "email" ->
  rows !! i = Some a ->
  results !! Z.of_nat i = Some r ->
  enrichments r !! key cfg = Some e ->
  truthy (value e) = false ->
  (truthy (VNum 0) = false /\ truthy (VBool false) = false /\ truthy (VStr "") = false)
  /\ sortValue rows results emailColumn cfg a = VStr ""
  /\ sortValue rows (delete (Z.of_nat i) results) emailColumn cfg a = VStr ""
  /\ (forall b c,
        compareRows StringToNumber rows results emailColumn cfg b c
        = compareRows StringToNumber rows (delete (Z.of_nat i) results) emailColumn cfg b c)
  /\ sortedData StringToNumber rows results emailColumn (Some cfg)
     = sortedData StringToNumber rows (delete (Z.of_nat i) results) emailColumn (Some cfg)
  /\ sortedData StringToNumber rows results emailColumn (Some cfg)
     = sortedData StringToNumber rows
         (<[ Z.of_nat i := {| status := status r;
                              enrichments := delete (key cfg) (enrichments r) |} ]>
            results)
         emailColumn (Some cfg)
  /\ (direction cfg = asc ->
      JS.consistent (compareRows StringToNumber rows results emailColumn cfg) rows = true ->
      forall (p q j : nat) (b : CSVRow) (rb : RowEnrichmentResult) (eb : EnrichmentResult),
        sortedData StringToNumber rows results emailColumn (Some cfg) !! p = Some a ->
        sortedData StringToNumber rows results emailColumn (Some cfg) !! q = Some b ->
        rows !! j = Some b ->
        results !! Z.of_nat j = Some rb ->
        enrichments rb !! key cfg = Some eb ->
        (forall x, value eb = VNum x -> JS.lt 0 x = true -> (p < q)%nat)
        /\ (forall s, value eb = VStr s -> s <> "" -> (p < q)%nat)
        /\ (forall x, value eb = VNum x -> JS.lt x 0 = true -> (q < p)%nat)).
Proof.
  intros Hempty Hnd Hkey Ha Hr He Hfalsy.
  assert (Hvalue : sortValue rows results emailColumn cfg a = VStr "").
  { rewrite (sortValue_stored rows results emailColumn cfg Hnd Hkey i a r e Ha Hr He).
    now apply or_falsy. }
  split; [repeat split|]. split; [exact Hvalue|].
  split; [now rewrite <- (sortValue_withoutResult rows results emailColumn cfg i r e)|].
  split; [intros b c; now apply (compareRows_withoutResult _ _ _ _ _ i r e)|].
  split; [now apply (sortedData_withoutResult _ _ _ _ _ i r e)|].
  split; [now apply (sortedData_withoutField _ _ _ _ _ i r e)|].
  intros Hasc Hcons p q j b rb eb Hp Hq Hb Hrb Heb.
  pose proof (sortValue_stored rows results emailColumn cfg Hnd Hkey j b rb eb Hb Hrb Heb)
    as Hkeyb.
  split; [|split].
  - intros x Hx Hpos. rewrite Hx in Hkeyb.
    destruct (positive_above_empty StringToNumber Hempty x Hpos) as [Hor Hlt].
    rewrite Hor in Hkeyb.
    apply (empty_key_first StringToNumber rows results emailColumn cfg Hasc p q a b);
      try assumption. now rewrite Hkeyb.
  - intros s Hs Hne. rewrite Hs in Hkeyb.
    destruct (nonempty_above_empty StringToNumber s Hne) as [Hor Hlt].
    rewrite Hor in Hkeyb.
    apply (empty_key_first StringToNumber rows results emailColumn cfg Hasc p q a b);
      try assumption. now rewrite Hkeyb.
  - intros x Hx Hneg. rewrite Hx in Hkeyb.
    destruct (negative_below_empty StringToNumber Hempty x Hneg) as [Hor Hlt].
    rewrite Hor in Hkeyb.
    apply (empty_key_last StringToNumber rows results emailColumn cfg Hasc p q a b);
      try assumption. now rewrite Hkeyb.
Qed.

(** The scenario's store with a score of 0 on row 2: the row's key is the
    empty string, and the rows come out as when row 2 has no result: row 0,
    row 2, and then row 1, whose score is 42 and which row 2 precedes. *)
Lemma falsy_value_sorts_as_absent_witness :
  sortValue Examples.threeRows
    (<[ 2 := Examples.scored "completed" 0 1 ]> Examples.streamed) None Examples.byScore
    {| ref := 2; cells := [("email", "c@x.com")] |}
  = VStr ""
  /\ sortedData Examples.StringToNumber Examples.threeRows
       (<[ 2 := Examples.scored "completed" 0 1 ]> Examples.streamed) None
       (Some Examples.byScore)
     = sortedData Examples.StringToNumber Examples.threeRows
         (delete (Z.of_nat 2) (<[ 2 := Examples.scored "completed" 0 1 ]> Examples.streamed))
         None (Some Examples.byScore)
  /\ displayOrder Examples.StringToNumber Examples.threeRows
       (<[ 2 := Examples.scored "completed" 0 1 ]> Examples.streamed) None
       (Some Examples.byScore) = [0; 2; 1]
  /\ (forall p q : nat,
        sortedData Examples.StringToNumber Examples.threeRows
          (<[ 2 := Examples.scored "completed" 0 1 ]> Examples.streamed) None
          (Some Examples.byScore) !! p
        = Some {| ref := 2; cells := [("email", "c@x.com")] |} ->
        sortedData Examples.StringToNumber Examples.threeRows
          (<[ 2 := Examples.scored "completed" 0 1 ]> Examples.streamed) None
          (Some Examples.byScore) !! q
        = Some {| ref := 1; cells := [("email", "b@x.com")] |} ->
        (p < q)%nat).
Proof.
  destruct (falsy_value_sorts_as_absent Examples.StringToNumber Examples.threeRows
              (<[ 2 := Examples.scored "completed" 0 1 ]> Examples.streamed) None
              Examples.byScore 2
              {| ref := 2; cells := [("email", "c@x.com")] |}
              (Examples.scored "completed" 0 1)
              {| value := VNum 0; confidence := Some 1%float |})
    as (_ & Hkey & _ & _ & Hsame & _ & Hplace);
    [reflexivity | compute_done | discriminate | reflexivity | reflexivity | reflexivity
    | reflexivity |].
  split; [exact Hkey|]. split; [exact Hsame|]. split; [vm_compute; reflexivity|].
  intros p q Hp Hq.
  destruct (Hplace eq_refl ltac:(vm_compute; reflexivity) p q 1%nat
              {| ref := 1; cells := [("email", "b@x.com")] |}
              (Examples.scored "completed" 42 (9 / 10))
              {| value := VNum 42; confidence := Some (9 / 10)%float |}
              Hp Hq eq_refl eq_refl eq_refl) as (Hpositive & _).
  apply (Hpositive 42%float); reflexivity.
Defined.

(** C8, datasets on which the row with the falsy value is not in the lowest
    position: row 0 has the score 0 (or false, or the empty string), row 1
    has none and row 2 has -5.  Row 2 is shown first, and the row with the
    falsy value and the row without a value follow it. *)
Lemma falsy_value_after_negative :
  displayOrder Examples.StringToNumber Examples.threeRows
    (Examples.falsyAndNegative (VNum 0)) None (Some Examples.byScore) = [2; 0; 1]
  /\ displayOrder Examples.StringToNumber Examples.threeRows
       (Examples.falsyAndNegative (VBool false)) None (Some Examples.byScore) = [2; 0; 1]
  /\ displayOrder Examples.StringToNumber Examples.threeRows
       (Examples.falsyAndNegative (VStr "")) None (Some Examples.byScore) = [2; 0; 1].
Proof. repeat split; vm_compute; reflexivity. Qed.

(** ** Auto-scroll *)

(** Without a sort configuration the item the effect scrolls to shows the
    row being processed. *)
Lemma autoScroll_unsorted (StringToNumber : string -> float) (rows : list CSVRow)
  (results : gmap Z RowEnrichmentResult) (emailColumn : option string)
  (i : nat) (a : CSVRow) :
  NoDup (ref <$> rows) -> rows !! i = Some a ->
  autoScroll (Z.of_nat i) true = Some (Z.of_nat i)
  /\ displayOrder StringToNumber rows results emailColumn None !! i = Some (Z.of_nat i).
Proof.
  intros Hnd Hi. split.
  - unfold autoScroll. now destruct (Z.leb_spec 0 (Z.of_nat i)); [|lia].
  - unfold displayOrder. simpl. rewrite list_lookup_fmap, Hi. simpl.
    now rewrite (rowIndexOf_lookup rows a i Hnd Hi).
Qed.

Lemma autoScroll_unsorted_witness :
  autoScroll 1 true = Some 1
  /\ displayOrder Examples.StringToNumber Examples.threeRows Examples.streamed None None
       !! 1%nat = Some 1.
Proof.
  apply (autoScroll_unsorted Examples.StringToNumber Examples.threeRows Examples.streamed
           None 1 {| ref := 1; cells := [("email", "b@x.com")] |}).
  - compute_done.
  - reflexivity.
Defined.

(** C1, on the failing input: three rows uploaded in descending order of
    their address, sorted by the identity column ascending, row 0 being
    processed.  The effect scrolls to item 0; item 0 of the list shows row 2,
    and row 0 is item 2. *)
Lemma autoScroll_targets_original_index :
  autoScroll 0 true = Some 0
  /\ displayOrder Examples.StringToNumber Examples.descendingEmails ∅ (Some "email")
       (Some Examples.byEmail) = [2; 1; 0]
  /\ displayOrder Examples.StringToNumber Examples.descendingEmails ∅ (Some "email")
       (Some Examples.byEmail) !! 0%nat = Some 2
  /\ displayOrder Examples.StringToNumber Examples.descendingEmails ∅ (Some "email")
       (Some Examples.byEmail) !! 2%nat = Some 0.
Proof. repeat split; vm_compute; reflexivity. Qed.

(** * Further properties of the component *)

(** ** Sorting from the header *)

Lemma handleSort_same (k : string) (d : Direction) :
  handleSort k (Some {| key := k; direction := d |})
  = Some {| key := k; direction := match d with asc => desc | desc => asc end |}.
Proof. unfold handleSort. simpl. now rewrite String.eqb_refl. Qed.

Lemma handleSort_key (k : string) (current : option SortConfig) :
  exists d, handleSort k current = Some {| key := k; direction := d |}.
Proof.
  unfold handleSort. destruct current as [c|]; [|eauto].
  destruct (String.eqb (key c) k); eauto.
Qed.

(** A click on a header always leaves a sort configuration on the clicked
    key, and there is no way back to the unsorted view: the first click on a
    key sorts ascending, and every further click on it toggles the
    direction, so that three clicks are as one. *)
Theorem handleSort_toggles (k : string) (current : option SortConfig) :
  (exists d, handleSort k current = Some {| key := k; direction := d |})
  /\ handleSort k None = Some {| key := k; direction := asc |}
  /\ (forall c, current = Some c -> key c <> k ->
        handleSort k current = Some {| key := k; direction := asc |})
  /\ (forall d, handleSort k (Some {| key := k; direction := d |})
        = Some {| key := k; direction := match d with asc => desc | desc => asc end |})
  /\ handleSort k (handleSort k (handleSort k current)) = handleSort k current.
Proof.
  split; [apply handleSort_key|]. split; [reflexivity|].
  split; [|split; [apply handleSort_same|]].
  - intros c -> Hne. unfold handleSort.
    now destruct (String.eqb_spec (key c) k).
  - destruct (handleSort_key k current) as [d ->]. rewrite !handleSort_same.
    now destruct d.
Qed.

Lemma columns_lookup_field (fields : list EnrichmentField) (emailColumn : option string)
  (i : nat) (c : TableColumn) :
  columns fields emailColumn !! i = Some c ->
  (i < S (length fields))%nat -> sortable c = true /\ resizable c = true.
Proof.
  unfold columns. intros Hc Hi. destruct i as [|i]; simpl in Hc.
  - injection Hc as <-. now split.
  - rewrite lookup_app_l in Hc by (rewrite length_fmap; lia).
    rewrite list_lookup_fmap in Hc.
    destruct (fields !! i); [|discriminate]. injection Hc as <-. now split.
Qed.

Lemma columns_lookup_last (fields : list EnrichmentField) (emailColumn : option string)
  (i : nat) (c : TableColumn) :
  columns fields emailColumn !! i = Some c ->
  (S (length fields) <= i)%nat -> i = S (length fields) /\ c = actionCol.
Proof.
  unfold columns. intros Hc Hi. destruct i as [|i]; [lia|]. simpl in Hc.
  rewrite lookup_app_r in Hc by (rewrite length_fmap; lia).
  rewrite length_fmap in Hc.
  destruct (i - length fields)%nat as [|n] eqn:E; simpl in Hc; [|discriminate].
  injection Hc as <-. split; [lia | reflexivity].
Qed.

(** The table has the identity column, one column per field in the order of
    the fields, and the actions column at the end.  The actions column is
    the only one that can neither be sorted nor resized: a click on its
    header changes nothing and it never shows a chevron, while a click on
    any other header sorts by that column's key and puts the chevron of the
    new direction on it. *)
Theorem columns_layout (fields : list EnrichmentField) (emailColumn : option string) :
  columnKey <$> columns fields emailColumn = "email" :: (name <$> fields) ++ ["actions"]
  /\ length (columns fields emailColumn) = (length fields + 2)%nat
  /\ (forall (i : nat) (c : TableColumn),
        columns fields emailColumn !! i = Some c ->
        (sortable c = true <-> (i < length fields + 1)%nat)
        /\ resizable c = sortable c)
  /\ (forall (i : nat) (c : TableColumn) (sortConfig : option SortConfig),
        columns fields emailColumn !! i = Some c ->
        i = (length fields + 1)%nat ->
        headerClick c sortConfig = sortConfig /\ sortIndicator c sortConfig = None)
  /\ (forall (i : nat) (c : TableColumn) (sortConfig : option SortConfig),
        columns fields emailColumn !! i = Some c ->
        (i < length fields + 1)%nat ->
        exists d, headerClick c sortConfig = Some {| key := columnKey c; direction := d |}
                  /\ sortIndicator c (headerClick c sortConfig) = Some d).
Proof.
  split; [|split; [|split; [|split]]].
  - unfold columns. simpl. rewrite fmap_app, <- list_fmap_compose. reflexivity.
  - unfold columns. simpl. rewrite length_app, length_fmap. simpl. lia.
  - intros i c Hc.
    destruct (Nat.lt_ge_cases i (S (length fields))) as [Hi|Hi].
    + destruct (columns_lookup_field _ _ _ _ Hc Hi) as [Hs Hr].
      rewrite Hs, Hr. split; [split; [lia | reflexivity] | reflexivity].
    + destruct (columns_lookup_last _ _ _ _ Hc Hi) as [-> ->].
      simpl. split; [split; [discriminate | lia] | reflexivity].
  - intros i c sortConfig Hc ->.
    destruct (columns_lookup_last _ _ _ _ Hc) as [_ ->]; [lia|].
    unfold headerClick, sortIndicator. simpl. now destruct sortConfig.
  - intros i c sortConfig Hc Hi.
    destruct (columns_lookup_field _ _ _ _ Hc) as [Hs _]; [lia|].
    unfold headerClick. rewrite Hs.
    destruct (handleSort_key (columnKey c) sortConfig) as [d Hd].
    exists d. split; [exact Hd|]. rewrite Hd. unfold sortIndicator. simpl.
    now rewrite Hs, String.eqb_refl.
Qed.

(** ** What the sorted rows are made of, and what they depend on *)

Lemma sortedData_Permutation_rows (StringToNumber : string -> float)
  (rows : list CSVRow) (results : gmap Z RowEnrichmentResult)
  (emailColumn : option string) (sortConfig : option SortConfig) :
  sortedData StringToNumber rows results emailColumn sortConfig ≡ₚ rows.
Proof.
  destruct sortConfig as [cfg|]; simpl; [apply sort_Permutation | reflexivity].
Qed.

(** The list always renders every row exactly once: the sorted rows are a
    permutation of the dataset, the item count is the number of rows, and
    without a sort configuration the rows are shown as uploaded. *)
Theorem sortedData_permutation (StringToNumber : string -> float)
  (rows : list CSVRow) (results : gmap Z RowEnrichmentResult)
  (emailColumn : option string) (sortConfig : option SortConfig) :
  sortedData StringToNumber rows results emailColumn sortConfig ≡ₚ rows
  /\ length (sortedData StringToNumber rows results emailColumn sortConfig) = length rows
  /\ (forall row, row ∈ sortedData StringToNumber rows results emailColumn sortConfig
                  <-> row ∈ rows)
  /\ sortedData StringToNumber rows results emailColumn None = rows.
Proof.
  pose proof (sortedData_Permutation_rows StringToNumber rows results emailColumn
                sortConfig) as H.
  split; [exact H|]. split; [now rewrite H|]. split; [|reflexivity].
  intros row. now rewrite H.
Qed.

(** A sort by the identity column looks at the rows' cells only: results
    that arrive do not move any row.  A sort by any other key looks at the
    results only: the identity-column designation plays no part. *)
Theorem sortedData_depends_on (StringToNumber : string -> float)
  (rows : list CSVRow) (results results' : gmap Z RowEnrichmentResult)
  (emailColumn emailColumn' : option string) (cfg : SortConfig) :
  (key cfg = "email" ->
   sortedData StringToNumber rows results emailColumn (Some cfg)
   = sortedData StringToNumber rows results' emailColumn (Some cfg))
  /\ (key cfg <> "email" ->
      sortedData StringToNumber rows results emailColumn (Some cfg)
      = sortedData StringToNumber rows results emailColumn' (Some cfg)).
Proof.
  split; intros Hk; simpl; apply sort_ext; intros a b;
    unfold compareRows, sortValue;
    destruct (String.eqb_spec (key cfg) "email"); try contradiction; reflexivity.
Qed.

(** ** Toggling the direction *)

(** A comparator and its opposite sort a list into reverse orders when the
    comparator is consistent on the list and ties no two of its elements. *)
Lemma sort_opposite_reverse {A} (cmp cmp' : A -> A -> Z) (l : list A) :
  (forall x y, cmp y x = - cmp x y) ->
  (forall x y, cmp' x y = - cmp x y) ->
  JS.transitiveOn cmp l ->
  (forall x y, x ∈ l -> y ∈ l -> cmp x y = 0 -> x = y) ->
  JS.sort cmp' l = reverse (JS.sort cmp l).
Proof.
  intros Hopp Hneg Htrans Hties.
  assert (Hopp' : forall x y, cmp' y x = - cmp' x y).
  { intros x y. rewrite !Hneg, (Hopp x y). lia. }
  assert (Htrans' : JS.transitiveOn cmp' l).
  { intros a b c Ha Hb Hc Hab Hbc. unfold JS.notAfter in *.
    rewrite Hneg in *.
    pose proof (Htrans c b a Hc Hb Ha) as H. unfold JS.notAfter in H.
    rewrite (Hopp a c), (Hopp b c), (Hopp a b) in H. lia. }
  rewrite <- (reverse_involutive (JS.sort cmp' l)). f_equal.
  apply (StronglySorted_unique_strong (JS.notAfter cmp)).
  - intros x y Hx Hy Hxy Hyx. unfold JS.notAfter in *.
    rewrite elem_of_reverse, sort_elem_of in Hx. rewrite sort_elem_of in Hy.
    apply Hties; [assumption | assumption |]. rewrite (Hopp x y) in Hyx. lia.
  - apply (StronglySorted_reverse_flip (JS.notAfter cmp')).
    + intros x y H. unfold JS.notAfter in *. rewrite Hneg in H.
      rewrite (Hopp x y). lia.
    + now apply sort_StronglySorted.
  - now apply sort_StronglySorted.
  - now rewrite reverse_Permutation, !sort_Permutation.
Qed.

Section Direction.

Variable StringToNumber : string -> float.
Variable rows : list CSVRow.
Variable results : gmap Z RowEnrichmentResult.
Variable emailColumn : option string.

Lemma compareRows_desc (k : string) (a b : CSVRow) :
  compareRows StringToNumber rows results emailColumn {| key := k; direction := desc |} a b
  = - compareRows StringToNumber rows results emailColumn {| key := k; direction := asc |} a b.
Proof.
  unfold compareRows, sortValue. simpl.
  destruct (IsLessThan _ _ _); [reflexivity|]. now destruct (IsLessThan _ _ _).
Qed.

End Direction.

(** When the comparator is consistent on the dataset and no two rows have
    keys that compare equal, the descending order is the ascending order
    reversed: a second click on a header turns the list upside down. *)
Theorem sortedData_descending_reverses (StringToNumber : string -> float)
  (rows : list CSVRow) (results : gmap Z RowEnrichmentResult)
  (emailColumn : option string) (k : string) :
  JS.consistent
    (compareRows StringToNumber rows results emailColumn {| key := k; direction := asc |})
    rows = true ->
  (forall a b, a ∈ rows -> b ∈ rows ->
     compareRows StringToNumber rows results emailColumn {| key := k; direction := asc |} a b
     = 0 -> a = b) ->
  sortedData StringToNumber rows results emailColumn
    (handleSort k (Some {| key := k; direction := asc |}))
  = reverse (sortedData StringToNumber rows results emailColumn
               (Some {| key := k; direction := asc |})).
Proof.
  intros Hcons Hties.
  rewrite handleSort_same. simpl.
  apply sort_opposite_reverse.
  - intros x y. apply compareRows_opp.
  - intros x y. apply compareRows_desc.
  - now apply consistent_transitiveOn.
  - exact Hties.
Qed.

Lemma sortedData_descending_reverses_witness :
  sortedData Examples.StringToNumber Examples.threeRows ∅ (Some "email")
    (handleSort "email" (Some Examples.byEmail))
  = reverse (sortedData Examples.StringToNumber Examples.threeRows ∅ (Some "email")
               (Some Examples.byEmail)).
Proof.
  apply (sortedData_descending_reverses Examples.StringToNumber Examples.threeRows ∅
           (Some "email") "email").
  - vm_compute. reflexivity.
  - intros a b Ha Hb.
    unfold Examples.threeRows in Ha, Hb.
    rewrite !elem_of_cons in Ha, Hb.
    destruct Ha as [->|[->|[->|Ha]]]; [| | |inversion Ha];
      (destruct Hb as [->|[->|[->|Hb]]]; [| | |inversion Hb]);
      vm_compute; congruence.
Defined.

(** With ties the two orders are not mirror images: tied rows keep their
    index order in both directions. *)
Example sortedData_descending_with_ties :
  displayOrder Examples.StringToNumber Examples.fourRows Examples.pairedScores None
    (Some Examples.byScore) = [1; 3; 0; 2]
  /\ displayOrder Examples.StringToNumber Examples.fourRows Examples.pairedScores None
       (handleSort "score" (Some Examples.byScore)) = [0; 2; 1; 3].
Proof. split; vm_compute; reflexivity. Qed.

(** ** The selection the user can reach *)

Lemma indexOf_from_bounds (l : list CSVRow) (a : CSVRow) (k : Z) :
  a ∈ l -> k <= indexOf_from same_row l a k < k + Z.of_nat (length l).
Proof.
  revert k. induction l as [|b l IH]; intros k Ha; [inversion Ha|].
  simpl. destruct (same_row b a) eqn:E; [lia|].
  apply elem_of_cons in Ha as [->|Ha].
  - unfold same_row in E. rewrite Nat.eqb_refl in E. discriminate.
  - specialize (IH (k + 1) Ha). lia.
Qed.

Lemma rowIndexOf_bounds (rows : list CSVRow) (a : CSVRow) :
  a ∈ rows -> 0 <= rowIndexOf rows a < Z.of_nat (length rows).
Proof. intros Ha. apply (indexOf_from_bounds rows a 0 Ha). Qed.

Lemma elem_of_allIndices (rows : list CSVRow) (i : Z) :
  i ∈ allIndices rows <-> 0 <= i < Z.of_nat (length rows).
Proof.
  unfold allIndices. rewrite list_elem_of_fmap. split.
  - intros (n & -> & Hn). apply elem_of_seq in Hn. lia.
  - intros Hi. exists (Z.to_nat i). split; [lia|]. apply elem_of_seq. lia.
Qed.

Section Selection.

Variable StringToNumber : string -> float.
Variable rows : list CSVRow.
Variable emailColumn : option string.

Local Abbreviation inRange :=
  (fun selectedRows : gset Z =>
     forall i, i ∈ selectedRows -> 0 <= i < Z.of_nat (length rows)).

Lemma selectionStep_inRange (selectedRows : gset Z) (e : SelectionEvent) :
  inRange selectedRows ->
  inRange (selectionStep StringToNumber rows emailColumn selectedRows e).
Proof.
  intros Hin. destruct e as [results sortConfig index checked|]; simpl.
  - destruct (sortedData _ _ _ _ _ !! index) as [row|] eqn:E; [|exact Hin].
    assert (Hrow : row ∈ rows).
    { rewrite <- (sortedData_Permutation_rows StringToNumber rows results emailColumn
                    sortConfig).
      now apply list_elem_of_lookup_2 in E. }
    unfold handleRowSelect. destruct checked; intros i Hi.
    + apply elem_of_union in Hi as [Hi|Hi]; [auto|].
      apply elem_of_singleton in Hi. subst i. now apply rowIndexOf_bounds.
    + apply elem_of_difference in Hi as [Hi _]. auto.
  - unfold handleSelectAll. destruct (Nat.eqb _ _); intros i Hi.
    + now apply elem_of_empty in Hi.
    + apply elem_of_list_to_set in Hi. now apply elem_of_allIndices.
Qed.

Lemma selectionAfter_inRange (es : list SelectionEvent) :
  inRange (selectionAfter StringToNumber rows emailColumn es).
Proof.
  unfold selectionAfter.
  assert (H : forall s, inRange s -> inRange (foldl (selectionStep StringToNumber rows emailColumn) s es)).
  { induction es as [|e es IH]; intros s Hs; simpl; [exact Hs|].
    apply IH. now apply selectionStep_inRange. }
  apply H. intros i Hi. now apply elem_of_empty in Hi.
Qed.

Lemma inRange_full (selectedRows : gset Z) :
  inRange selectedRows ->
  (size selectedRows = length rows <-> selectedRows = list_to_set (allIndices rows)).
Proof.
  intros Hin. split.
  - intros Hsize. apply set_subseteq_size_eq.
    + intros i Hi. apply elem_of_list_to_set, elem_of_allIndices. auto.
    + rewrite size_all_selected. lia.
  - intros ->. apply size_all_selected.
Qed.

End Selection.

(** However the user works the row checkboxes and the header checkbox,
    under whatever sort and with whatever results on screen, the selection
    only ever holds indices of rows of the dataset.  Hence the header
    checkbox is checked exactly when every row is selected (and there is
    one), the header checkbox then clears the selection and otherwise
    selects every row, and the footer is shown exactly when some row is
    selected. *)
Theorem selection_stays_in_range (StringToNumber : string -> float)
  (rows : list CSVRow) (emailColumn : option string) (es : list SelectionEvent) :
  (forall i, i ∈ selectionAfter StringToNumber rows emailColumn es ->
             0 <= i < Z.of_nat (length rows))
  /\ (headerChecked rows (selectionAfter StringToNumber rows emailColumn es) = true
      <-> rows <> []
          /\ selectionAfter StringToNumber rows emailColumn es
             = list_to_set (allIndices rows))
  /\ (selectionAfter StringToNumber rows emailColumn es = list_to_set (allIndices rows) ->
      handleSelectAll rows (selectionAfter StringToNumber rows emailColumn es) = ∅)
  /\ (selectionAfter StringToNumber rows emailColumn es <> list_to_set (allIndices rows) ->
      handleSelectAll rows (selectionAfter StringToNumber rows emailColumn es)
      = list_to_set (allIndices rows))
  /\ (footerShown (selectionAfter StringToNumber rows emailColumn es) = true
      <-> exists i, i ∈ selectionAfter StringToNumber rows emailColumn es).
Proof.
  pose proof (selectionAfter_inRange StringToNumber rows emailColumn es) as Hin.
  pose proof (inRange_full rows _ Hin) as Hfull.
  set (sel := selectionAfter StringToNumber rows emailColumn es) in *.
  split; [exact Hin|]. split; [|split; [|split]].
  - unfold headerChecked. rewrite andb_true_iff, Nat.eqb_eq, Nat.ltb_lt, Hfull.
    destruct rows; simpl; split; intros [H1 H2]; split; auto; try lia; congruence.
  - intros H. apply Hfull in H. unfold handleSelectAll.
    now rewrite H, Nat.eqb_refl.
  - intros H. unfold handleSelectAll.
    destruct (Nat.eqb_spec (size sel) (length rows)) as [E|_]; [|reflexivity].
    now apply Hfull in E.
  - unfold footerShown. rewrite Nat.ltb_lt. split.
    + intros H. apply size_pos_elem_of in H. exact H.
    + intros [i Hi]. destruct (size sel) eqn:E; [|lia].
      apply size_empty_iff in E. rewrite E in Hi. now apply elem_of_empty in Hi.
Qed.

(** ** What the cells show *)

Lemma property_missing (cs : list (string * string)) (k : string) :
  k ∉ cs.*1 -> property cs k = VUndefined.
Proof.
  induction cs as [|[k' v] cs IH]; simpl; intros Hk; [reflexivity|].
  apply not_elem_of_cons in Hk as [Hne Hk].
  destruct (String.eqb_spec k' k); [congruence | auto].
Qed.

Lemma property_present (cs : list (string * string)) (k : string) :
  k ∈ cs.*1 -> exists v, property cs k = VStr v /\ (k, v) ∈ cs.
Proof.
  induction cs as [|[k' v] cs IH]; simpl; intros Hk; [inversion Hk|].
  destruct (String.eqb_spec k' k) as [->|Hne].
  - exists v. split; [reflexivity | apply elem_of_cons; now left].
  - apply elem_of_cons in Hk as [Hk|Hk]; [congruence|].
    destruct (IH Hk) as (w & Hw & Hin). exists w. split; [exact Hw|].
    apply elem_of_cons. now right.
Qed.

(** The cells of a row.  The identity cell always shows a text: the cell of
    the designated column, or the dash when the row has no such column or
    the cell is empty (the first cell is used only when no column is
    designated).  A field cell shows the dash when the row has no result or
    the result lacks the field, and otherwise the formatted value, where a
    string is shown as it is and a list with its items separated by a comma
    and a blank, so that an empty string and an empty list show nothing
    rather than the dash. *)
Theorem row_cells (NumberToString : float -> string) (emailColumn : option string)
  (row : CSVRow) (result : option RowEnrichmentResult) (field : EnrichmentField) :
  (exists s, emailText emailColumn row = VStr s)
  /\ (forall c, emailColumn = Some c -> c <> "" -> c ∉ (cells row).*1 ->
        emailText emailColumn row = VStr "-")
  /\ (forall c, emailColumn = Some c -> c <> "" -> c ∈ (cells row).*1 ->
        exists v, (c, v) ∈ cells row
                  /\ emailText emailColumn row = VStr (if String.eqb v "" then "-" else v))
  /\ (result = None -> fieldText NumberToString result field = "-")
  /\ (forall r, result = Some r -> enrichments r !! name field = None ->
        fieldText NumberToString result field = "-")
  /\ (forall r e, result = Some r -> enrichments r !! name field = Some e ->
        fieldText NumberToString result field = formatValue NumberToString (value e))
  /\ (forall s, formatValue NumberToString (VStr s) = s)
  /\ formatValue NumberToString (VArr []) = ""
  /\ (forall s l, formatValue NumberToString (VArr (s :: l))
                  = String.concat ", " (s :: l)).
Proof.
  split; [|split; [|split; [|split; [|split; [|split; [|split; [|split]]]]]]].
  - unfold emailText, emailValue, or, firstValue.
    destruct emailColumn as [c|].
    + destruct (String.eqb c "").
      * destruct (cells row) as [|[k v] cs]; simpl; [eauto|].
        destruct (String.eqb v ""); simpl; eauto.
      * induction (cells row) as [|[k v] cs IH]; simpl; [eauto|].
        destruct (String.eqb k c); [|exact IH].
        simpl. destruct (String.eqb v ""); simpl; eauto.
    + destruct (cells row) as [|[k v] cs]; simpl; [eauto|].
      destruct (String.eqb v ""); simpl; eauto.
  - intros c -> Hc Hmiss. unfold emailText, emailValue.
    destruct (String.eqb_spec c ""); [contradiction|].
    now rewrite (property_missing _ _ Hmiss).
  - intros c -> Hc Hin. unfold emailText, emailValue.
    destruct (String.eqb_spec c ""); [contradiction|].
    destruct (property_present _ _ Hin) as (v & Hv & Hcv).
    exists v. split; [exact Hcv|]. rewrite Hv. unfold or. simpl.
    now destruct (String.eqb v "").
  - now intros ->.
  - intros r -> Hr. unfold fieldText. simpl. now rewrite Hr.
  - intros r e -> Hr. unfold fieldText. simpl. now rewrite Hr.
  - reflexivity.
  - reflexivity.
  - reflexivity.
Qed.

(** ** The status icon *)

(** The processing marker decides the icon only of rows that have no result
    yet: such a row shows the clock when it is the marked row and the grey
    dot otherwise, so at most one of them shows the clock.  For a row with a
    result the marker plays no part; a status that is none of processing,
    completed, error and skipped (a stored pending, say) shows the grey dot,
    and an absent or empty status the green check. *)
Theorem rowIcon_cases (results : gmap Z RowEnrichmentResult)
  (currentProcessingRow rowIndex : Z) :
  (results !! rowIndex = None ->
   rowIcon results currentProcessingRow rowIndex
   = if currentProcessingRow =? rowIndex then ClockIcon else GreyDot)
  /\ (forall other,
        results !! rowIndex = None -> results !! other = None ->
        rowIcon results currentProcessingRow rowIndex = ClockIcon ->
        rowIcon results currentProcessingRow other = ClockIcon ->
        rowIndex = other)
  /\ (forall marker, is_Some (results !! rowIndex) ->
        rowIcon results marker rowIndex = rowIcon results currentProcessingRow rowIndex)
  /\ (forall r s, results !! rowIndex = Some r -> status r = Some s ->
        s <> "" -> s <> "processing" -> s <> "completed" -> s <> "error" ->
        s <> "skipped" ->
        rowIcon results currentProcessingRow rowIndex = GreyDot)
  /\ (forall r, results !! rowIndex = Some r ->
        status r = None \/ status r = Some "" ->
        rowIcon results currentProcessingRow rowIndex = CheckIcon).
Proof.
  assert (Hnone : forall i, results !! i = None ->
            rowIcon results currentProcessingRow i
            = if currentProcessingRow =? i then ClockIcon else GreyDot).
  { intros i H. unfold rowIcon, getRowStatus. rewrite H.
    now destruct (currentProcessingRow =? i). }
  split; [apply Hnone|]. split; [|split; [|split]].
  - intros other H1 H2. rewrite (Hnone _ H1), (Hnone _ H2).
    destruct (Z.eqb_spec currentProcessingRow rowIndex); [|discriminate].
    destruct (Z.eqb_spec currentProcessingRow other); [|discriminate].
    congruence.
  - intros marker [r Hr]. unfold rowIcon, getRowStatus. now rewrite Hr.
  - intros r s Hr Hs H0 H1 H2 H3 H4. unfold rowIcon, getRowStatus.
    rewrite Hr, Hs. destruct (String.eqb_spec s ""); [contradiction|].
    unfold VirtualTable.getStatusIcon.
    destruct (String.eqb_spec s "processing"); [contradiction|].
    destruct (String.eqb_spec s "completed"); [contradiction|].
    destruct (String.eqb_spec s "error"); [contradiction|].
    destruct (String.eqb_spec s "skipped"); [contradiction|].
    reflexivity.
  - intros r Hr Hs. unfold rowIcon, getRowStatus. rewrite Hr.
    now destruct Hs as [-> | ->].
Qed.

(** * Further properties of the hook *)

Lemma le_not_gt (x y : float) : JS.le x y = true -> JS.gt x y = false.
Proof.
  unfold JS.le, JS.gt. rewrite FloatAxioms.leb_spec, FloatAxioms.ltb_spec.
  unfold SFleb, SFltb. intros H.
  destruct (SFcompare (Prim2SF y) (Prim2SF x)) as [[]|] eqn:E; try reflexivity.
  rewrite (SFcompare_Lt_Gt _ _ E) in H. discriminate.
Qed.

(** ** Alerts are only ever appended by the recording operations *)

Lemma addAlert_prefix (alert : string) (prev : list string) :
  prev `prefix_of` addAlert alert prev /\ (length (addAlert alert prev) <= S (length prev))%nat.
Proof.
  unfold addAlert. destruct (includes prev alert).
  - split; [reflexivity | lia].
  - split; [now exists [alert] | rewrite length_app; simpl; lia].
Qed.

Lemma step_recording_prefix (NumberToString : float -> string)
  (thresholds : PerformanceThresholds) (h : Hook) (e : Event) :
  recording e = true ->
  alerts h `prefix_of` alerts (step NumberToString thresholds h e)
  /\ (length (alerts (step NumberToString thresholds h e)) <= length (alerts h) + 2)%nat.
Proof.
  assert (Hrefl : alerts h `prefix_of` alerts h /\ (length (alerts h) <= length (alerts h) + 2)%nat)
    by (split; [reflexivity | lia]).
  assert (Hone : forall a, alerts h `prefix_of` addAlert a (alerts h)
                           /\ (length (addAlert a (alerts h)) <= length (alerts h) + 2)%nat).
  { intros a. destruct (addAlert_prefix a (alerts h)). split; [assumption | lia]. }
  intros Hrec. destruct e; try discriminate; simpl.
  - unfold measureMemoryUsage. destruct heap; [|exact Hrefl].
    destruct (JS.gt _ _); simpl; [apply Hone | exact Hrefl].
  - unfold measureFrameRate. destruct (JS.le _ _); [|exact Hrefl].
    destruct (JS.lt _ _); simpl; [apply Hone | exact Hrefl].
  - unfold measureRenderTime.
    destruct (JS.gt _ _); simpl; [apply Hone | exact Hrefl].
  - unfold updateProcessingMetrics.
    destruct (JS.gt (speedOf _ _) 0 && _), (JS.gt (errorRateOf _ _) _); simpl;
      try apply Hone; try exact Hrefl.
    destruct (addAlert_prefix (speedAlert NumberToString thresholds
                (speedOf processed (elapsedMinutes now started)))
                (alerts h)) as [P1 L1].
    destruct (addAlert_prefix (errorRateAlert NumberToString thresholds
                (errorRateOf total errors))
                (addAlert (speedAlert NumberToString thresholds
                   (speedOf processed (elapsedMinutes now started)))
                   (alerts h))) as [P2 L2].
    split; [now transitivity (addAlert (speedAlert NumberToString thresholds
                   (speedOf processed (elapsedMinutes now started)))
                   (alerts h)) | lia].
  - exact Hrefl.
  - unfold observeEntry. destruct (String.eqb _ _); [|exact Hrefl].
    destruct (JS.gt _ _); simpl; [apply Hone | exact Hrefl].
Qed.

(** The recording operations never drop, reorder or rewrite an alert: after
    any run of them the alerts begin with the alerts there were, each
    operation adds at most two, and so an alert stays on the list after its
    metric has recovered, until it is cleared or the hook is reset. *)
Theorem alerts_append_only (NumberToString : float -> string)
  (thresholds : PerformanceThresholds) (h : Hook) (es : list Event) :
  forallb recording es = true ->
  alerts h `prefix_of` alerts (run NumberToString thresholds h es)
  /\ (length (alerts (run NumberToString thresholds h es))
      <= length (alerts h) + 2 * length es)%nat
  /\ (forall alert, alert ∈ alerts h ->
        alert ∈ alerts (run NumberToString thresholds h es)).
Proof.
  revert h. induction es as [|e es IH]; intros h Hrec; simpl in *.
  - split; [reflexivity|]. split; [lia | auto].
  - apply andb_true_iff in Hrec as [He Hes].
    destruct (step_recording_prefix NumberToString thresholds h e He) as [P1 L1].
    destruct (IH (step NumberToString thresholds h e) Hes) as (P2 & L2 & _).
    assert (P : alerts h `prefix_of`
                alerts (run NumberToString thresholds (step NumberToString thresholds h e) es))
      by now transitivity (alerts (step NumberToString thresholds h e)).
    split; [exact P|]. split; [lia|].
    intros alert Ha. destruct P as [k ->]. apply elem_of_app. now left.
Qed.

(** A memory sample of 600MB raises the alert; a sample of 100MB and a
    network failure later it is still the only alert. *)
Lemma alerts_append_only_witness :
  alerts (run Examples.NumberToString DEFAULT_THRESHOLDS
            (run Examples.NumberToString DEFAULT_THRESHOLDS (initial 0 0 0)
               [MemorySample (Some (600 * 1024 * 1024)%float) 2000])
            [MemorySample (Some (100 * 1024 * 1024)%float) 4000; NetworkOutcome false 4100])
  = ["High memory usage: 600MB (threshold: 500MB)"]
  /\ memoryUsage
       (metrics (run Examples.NumberToString DEFAULT_THRESHOLDS
                   (run Examples.NumberToString DEFAULT_THRESHOLDS (initial 0 0 0)
                      [MemorySample (Some (600 * 1024 * 1024)%float) 2000])
                   [MemorySample (Some (100 * 1024 * 1024)%float) 4000;
                    NetworkOutcome false 4100]))
     = 100%float
  /\ ["High memory usage: 600MB (threshold: 500MB)"%string]
     `prefix_of`
     alerts (run Examples.NumberToString DEFAULT_THRESHOLDS
               (run Examples.NumberToString DEFAULT_THRESHOLDS (initial 0 0 0)
                  [MemorySample (Some (600 * 1024 * 1024)%float) 2000])
               [MemorySample (Some (100 * 1024 * 1024)%float) 4000;
                NetworkOutcome false 4100]).
Proof.
  split; [vm_compute; reflexivity|]. split; [vm_compute; reflexivity|].
  apply (alerts_append_only Examples.NumberToString DEFAULT_THRESHOLDS
           (run Examples.NumberToString DEFAULT_THRESHOLDS (initial 0 0 0)
              [MemorySample (Some (600 * 1024 * 1024)%float) 2000])
           [MemorySample (Some (100 * 1024 * 1024)%float) 4000; NetworkOutcome false 4100]).
  reflexivity.
Defined.

(** ** Clearing one alert *)

Lemma filter_other_id (alert : string) (l : list string) :
  alert ∉ l -> filter (fun a => a <> alert) l = l.
Proof.
  induction l as [|a l IH]; intros Hmiss; [reflexivity|].
  apply not_elem_of_cons in Hmiss as [Hne Hmiss].
  rewrite filter_cons. destruct (decide (a <> alert)) as [_|Hn].
  - now rewrite IH.
  - exfalso. apply Hn. congruence.
Qed.

(** [clearAlert] removes the named alert and nothing else: the other alerts
    stay, in their order, and the metrics are untouched; clearing an alert
    that is not on the list changes nothing; and when the breach is met
    again, the alert comes back at the end of the list. *)
Theorem clearAlert_removes_exactly (alert : string) (h : Hook) :
  (alert ∉ alerts (clearAlert alert h))
  /\ (forall other, other <> alert ->
        (other ∈ alerts (clearAlert alert h) <-> other ∈ alerts h))
  /\ alerts (clearAlert alert h) `sublist_of` alerts h
  /\ metrics (clearAlert alert h) = metrics h
  /\ (alert ∉ alerts h -> clearAlert alert h = h)
  /\ alerts (setAlerts (addAlert alert) (clearAlert alert h))
     = alerts (clearAlert alert h) ++ [alert].
Proof.
  unfold clearAlert. simpl.
  assert (Hnot : alert ∉ filter (fun a => a <> alert) (alerts h)).
  { intros H. apply list_elem_of_filter in H as [H _]. now apply H. }
  split; [exact Hnot|]. split; [|split; [|split; [|split]]].
  - intros other Hne. rewrite list_elem_of_filter. tauto.
  - apply sublist_filter.
  - reflexivity.
  - intros Hmiss. destruct h as [m al fc lf]. unfold setAlerts. simpl in *.
    now rewrite (filter_other_id _ _ Hmiss).
  - unfold addAlert. destruct (includes _ alert) eqn:E; [|reflexivity].
    apply includes_elem_of in E. contradiction.
Qed.

(** ** Network outcomes *)

Definition isNetworkOutcome (e : Event) : bool :=
  match e with NetworkOutcome _ _ => true | _ => false end.

Lemma trackNetworkRequest_issues (thresholds : PerformanceThresholds)
  (success : bool) (now : float) (h : Hook) :
  alerts (trackNetworkRequest success now h) = alerts h
  /\ issues thresholds (metrics (trackNetworkRequest success now h))
     = issues thresholds (metrics h)
  /\ (success = true ->
      failedRequests (metrics (trackNetworkRequest success now h))
      = failedRequests (metrics h)).
Proof. split; [reflexivity|]. split; [reflexivity|]. now intros ->. Qed.

(** However many network outcomes are recorded, and however many of them
    are failures, no alert is raised and the status does not change: the
    hook counts requests and failures and compares them with nothing.
    Successes leave the failure count as it is. *)
Theorem network_outcomes_never_alert (NumberToString : float -> string)
  (thresholds : PerformanceThresholds) (h : Hook) (es : list Event) :
  forallb isNetworkOutcome es = true ->
  alerts (run NumberToString thresholds h es) = alerts h
  /\ getPerformanceStatus thresholds (metrics (run NumberToString thresholds h es))
     = getPerformanceStatus thresholds (metrics h)
  /\ (Forall (fun e => exists now, e = NetworkOutcome true now) es ->
      failedRequests (metrics (run NumberToString thresholds h es))
      = failedRequests (metrics h)).
Proof.
  revert h. induction es as [|e es IH]; intros h Hes; simpl in *.
  - repeat split.
  - apply andb_true_iff in Hes as [He Hes]. destruct e; try discriminate. simpl.
    destruct (IH (trackNetworkRequest success now h) Hes) as (H1 & H2 & H3).
    destruct (trackNetworkRequest_issues thresholds success now h) as (A & I & F).
    split; [now rewrite H1|]. split.
    + rewrite H2. unfold getPerformanceStatus. now rewrite I.
    + intros Hall. apply Forall_cons in Hall as [[now' Heq] Hall].
      injection Heq as -> _. rewrite (H3 Hall). now apply F.
Qed.

Lemma network_outcomes_never_alert_witness :
  alerts (run Examples.NumberToString DEFAULT_THRESHOLDS (initial 0 0 0)
            [NetworkOutcome false 10; NetworkOutcome false 20; NetworkOutcome false 30])
  = []
  /\ getPerformanceStatus DEFAULT_THRESHOLDS
       (metrics (run Examples.NumberToString DEFAULT_THRESHOLDS (initial 0 0 0)
                   [NetworkOutcome false 10; NetworkOutcome false 20;
                    NetworkOutcome false 30]))
     = "good"
  /\ failedRequests
       (metrics (run Examples.NumberToString DEFAULT_THRESHOLDS (initial 0 0 0)
                   [NetworkOutcome false 10; NetworkOutcome false 20;
                    NetworkOutcome false 30]))
     = 3%float.
Proof.
  destruct (network_outcomes_never_alert Examples.NumberToString DEFAULT_THRESHOLDS
              (initial 0 0 0)
              [NetworkOutcome false 10; NetworkOutcome false 20; NetworkOutcome false 30])
    as (H1 & H2 & _); [reflexivity|].
  split; [exact H1|]. split; [exact H2 | vm_compute; reflexivity].
Defined.

(** ** Reset *)

(** The elapsed time from an instant to itself is never above zero. *)
Lemma elapsedMinutes_same (x : float) : JS.gt (elapsedMinutes x x) 0 = false.
Proof.
  unfold elapsedMinutes.
  assert (H : JS.le (x - x) 0 = true \/ Prim2SF (x - x) = S754_nan).
  { unfold JS.le. rewrite FloatAxioms.leb_spec, FloatAxioms.sub_spec.
    change (Prim2SF 0) with (S754_zero false).
    destruct (Prim2SF x) as [s|s| |s m e].
    - left. now destruct s.
    - right. now destruct s.
    - right. reflexivity.
    - left. unfold SF64sub, SFsub. rewrite Z.sub_diag. reflexivity. }
  destruct H as [H|H]; [now apply nonpositive_quotient|].
  unfold JS.gt. rewrite FloatAxioms.ltb_spec, FloatAxioms.div_spec, H. reflexivity.
Qed.

(** After [resetMetrics] there is no alert and, for thresholds whose three
    maxima are not negative, the status is good; the frame counter and its
    time origin are not reset.  The state's start time is the moment of the
    reset, so that a processing update made at that moment through a
    callback of the render that follows the reset reports speed 0.  The
    callback of the render before the reset still holds the previous run's
    start time: called after the reset and before the next render, it
    reports the speed it would have reported without the reset (a hook
    started at 0 and reset at 60000 reports, for 50 rows processed at 60000,
    50 rows per minute). *)
Theorem resetMetrics_fresh (NumberToString : float -> string)
  (thresholds : PerformanceThresholds) (started updated : float) (h : Hook) :
  JS.le 0 (maxMemoryUsage thresholds) = true ->
  JS.le 0 (maxRenderTime thresholds) = true ->
  JS.le 0 (maxErrorRate thresholds) = true ->
  alerts (resetMetrics started updated h) = []
  /\ getPerformanceStatus thresholds (metrics (resetMetrics started updated h)) = "good"
  /\ startTime (metrics (resetMetrics started updated h)) = started
  /\ (forall total processed errors,
        processingSpeed
          (metrics (updateProcessingMetrics NumberToString thresholds
                      (startTime (metrics (resetMetrics started updated h)))
                      total processed errors started (resetMetrics started updated h)))
        = 0%float)
  /\ (forall total processed errors now,
        processingSpeed
          (metrics (updateProcessingMetrics NumberToString thresholds
                      (startTime (metrics h))
                      total processed errors now (resetMetrics started updated h)))
        = processingSpeed
            (metrics (updateProcessingMetrics NumberToString thresholds
                        (startTime (metrics h)) total processed errors now h)))
  /\ processingSpeed
       (metrics (updateProcessingMetrics NumberToString thresholds
                   (startTime (metrics (initial 0 0 0))) 100 50 0 60000
                   (resetMetrics 60000 60000 (initial 0 0 0))))
     = 50%float
  /\ frameCount (resetMetrics started updated h) = frameCount h
  /\ lastFrameTime (resetMetrics started updated h) = lastFrameTime h.
Proof.
  intros Hm Hr He. split; [reflexivity|].
  split; [|split; [reflexivity|split; [|split; [|split; [|split; reflexivity]]]]].
  - unfold getPerformanceStatus, issues. simpl.
    rewrite (le_not_gt _ _ Hm), (le_not_gt _ _ Hr), (le_not_gt _ _ He).
    reflexivity.
  - intros total processed errors.
    rewrite metrics_updateProcessingMetrics. simpl.
    unfold speedOf. now rewrite elapsedMinutes_same.
  - intros total processed errors now.
    now rewrite !metrics_updateProcessingMetrics.
  - rewrite metrics_updateProcessingMetrics. reflexivity.
Qed.

Lemma resetMetrics_fresh_witness :
  alerts (resetMetrics 1700000000000 1700000000000
            (run Examples.NumberToString DEFAULT_THRESHOLDS (initial 0 0 0)
               [MemorySample (Some (600 * 1024 * 1024)%float) 2000])) = []
  /\ getPerformanceStatus DEFAULT_THRESHOLDS
       (metrics (resetMetrics 1700000000000 1700000000000
                   (run Examples.NumberToString DEFAULT_THRESHOLDS (initial 0 0 0)
                      [MemorySample (Some (600 * 1024 * 1024)%float) 2000]))) = "good"
  /\ processingSpeed
       (metrics (run Examples.NumberToString DEFAULT_THRESHOLDS (initial 0 0 0)
                   [Reset 60000 60000; ProcessingUpdate 0 100 50 0 60000]))
     = 50%float
  /\ processingSpeed
       (metrics (run Examples.NumberToString DEFAULT_THRESHOLDS (initial 0 0 0)
                   [Reset 60000 60000; ProcessingUpdate 60000 100 50 0 60000]))
     = 0%float.
Proof.
  destruct (resetMetrics_fresh Examples.NumberToString DEFAULT_THRESHOLDS
              1700000000000 1700000000000
              (run Examples.NumberToString DEFAULT_THRESHOLDS (initial 0 0 0)
                 [MemorySample (Some (600 * 1024 * 1024)%float) 2000]))
    as (H1 & H2 & _); [reflexivity | reflexivity | reflexivity |].
  destruct (resetMetrics_fresh Examples.NumberToString DEFAULT_THRESHOLDS
              60000 60000 (initial 0 0 0))
    as (_ & _ & _ & Hfresh & _ & Hstale & _); [reflexivity | reflexivity | reflexivity |].
  split; [exact H1|]. split; [exact H2|]. split; [exact Hstale|].
  exact (Hfresh 100%float 50%float 0%float).
Defined.

(** * Properties of the dashboard *)

Lemma getPerformanceStatus_statusOfCount (thresholds : PerformanceThresholds)
  (m : PerformanceMetrics) :
  getPerformanceStatus thresholds m = statusOfCount (breachedThresholds thresholds m).
Proof.
  unfold getPerformanceStatus, issues, breachedThresholds. rewrite !length_app.
  destruct (JS.gt (memoryUsage m) _), (JS.gt (renderTime m) _),
    (JS.gt (processingSpeed m) 0 && _), (JS.gt (errorRate m) _),
    (JS.gt (frameRate m) 0 && _); reflexivity.
Qed.

(** ** Status colour and icon *)

(** Whatever the thresholds and the metrics, the status the hook reports is
    one the dashboard has a colour and an icon for: the grey colour and the
    activity icon of the default cases are never shown.  Green and the check
    stand for no breach, yellow and the triangle for one or two, red and the
    cross for three or more. *)
Theorem status_colour_never_default (thresholds : PerformanceThresholds)
  (m : PerformanceMetrics) :
  PerformanceDashboard.getStatusColor (getPerformanceStatus thresholds m)
  <> PerformanceDashboard.Grey
  /\ PerformanceDashboard.getStatusIcon (getPerformanceStatus thresholds m)
     <> PerformanceDashboard.Activity
  /\ (PerformanceDashboard.getStatusColor (getPerformanceStatus thresholds m),
      PerformanceDashboard.getStatusIcon (getPerformanceStatus thresholds m))
     = match breachedThresholds thresholds m with
       | O => (PerformanceDashboard.Green, PerformanceDashboard.CheckCircle)
       | 1%nat | 2%nat => (PerformanceDashboard.Yellow, PerformanceDashboard.AlertTriangle)
       | _ => (PerformanceDashboard.Red, PerformanceDashboard.XCircle)
       end.
Proof.
  rewrite getPerformanceStatus_statusOfCount.
  destruct (breachedThresholds thresholds m) as [|[|[|n]]]; simpl;
    repeat split; discriminate.
Qed.

(** ** The alerts card *)

(** The alerts card lists the five oldest alerts and counts the others, so
    that listed and counted alerts together are all the alerts; an alert
    raised while five or more are on the list is not shown until older ones
    are cleared.  The card is hidden, and the compact view has no badge,
    exactly when there is no alert. *)
Theorem alerts_card_lists_oldest (alerts : list string) :
  PerformanceDashboard.listedAlerts alerts `prefix_of` alerts
  /\ length (PerformanceDashboard.listedAlerts alerts) = Nat.min 5 (length alerts)
  /\ (length (PerformanceDashboard.listedAlerts alerts)
      + default 0%nat (PerformanceDashboard.moreAlerts alerts))%nat = length alerts
  /\ (PerformanceDashboard.moreAlerts alerts = None <-> (length alerts <= 5)%nat)
  /\ (forall alert, (5 <= length alerts)%nat ->
        PerformanceDashboard.listedAlerts (addAlert alert alerts)
        = PerformanceDashboard.listedAlerts alerts)
  /\ (PerformanceDashboard.alertsCardShown true alerts = false <-> alerts = [])
  /\ (PerformanceDashboard.compactBadge alerts = None <-> alerts = []).
Proof.
  unfold PerformanceDashboard.listedAlerts, PerformanceDashboard.moreAlerts,
    PerformanceDashboard.alertsCardShown, PerformanceDashboard.compactBadge.
  split; [|split; [|split; [|split; [|split; [|split]]]]].
  - apply prefix_take.
  - rewrite length_take. lia.
  - rewrite length_take.
    destruct (Nat.ltb_spec 5 (length alerts)); cbv [from_option id]; lia.
  - destruct (Nat.ltb_spec 5 (length alerts)); split; intros; try discriminate;
      try reflexivity; lia.
  - intros alert H. unfold addAlert. destruct (includes alerts alert); [reflexivity|].
    now rewrite take_app_le.
  - simpl. destruct alerts; simpl; split; intros; try discriminate; reflexivity.
  - destruct alerts; simpl; split; intros; try discriminate; reflexivity.
Qed.

(** ** The tips card *)

(** The tips card is shown exactly when some threshold is breached, but it
    has a line for four of the five conditions only: when a low frame rate
    is the one breach, the card is shown without a single tip, and that is
    the only case in which it is shown empty. *)
Theorem tips_card_without_tips (m : PerformanceMetrics) :
  (PerformanceDashboard.tipsCardShown m = true
   <-> breachedThresholds DEFAULT_THRESHOLDS m <> 0%nat)
  /\ (PerformanceDashboard.tipsCardShown m = true /\ PerformanceDashboard.tips m = []
      <-> JS.gt (memoryUsage m) (maxMemoryUsage DEFAULT_THRESHOLDS) = false
          /\ JS.gt (renderTime m) (maxRenderTime DEFAULT_THRESHOLDS) = false
          /\ (JS.gt (processingSpeed m) 0
              && JS.lt (processingSpeed m) (minProcessingSpeed DEFAULT_THRESHOLDS)) = false
          /\ JS.gt (errorRate m) (maxErrorRate DEFAULT_THRESHOLDS) = false
          /\ (JS.gt (frameRate m) 0
              && JS.lt (frameRate m) (minFrameRate DEFAULT_THRESHOLDS)) = true).
Proof.
  unfold PerformanceDashboard.tipsCardShown, PerformanceDashboard.performanceStatus,
    PerformanceDashboard.tips.
  rewrite getPerformanceStatus_statusOfCount. unfold breachedThresholds.
  destruct (JS.gt (memoryUsage m) _), (JS.gt (renderTime m) _),
    (JS.gt (processingSpeed m) 0 && _), (JS.gt (errorRate m) _),
    (JS.gt (frameRate m) 0 && _); simpl;
    intuition (try discriminate; try lia; try congruence).
Qed.

(** ** What the dashboard's own hook can reach *)

Section DashboardInstance.

Variable NumberToString : float -> string.

(** No processing update and no network outcome has been recorded. *)
Definition untouched (m : PerformanceMetrics) : Prop :=
  totalRows m = 0%float /\ processedRows m = 0%float /\ processingSpeed m = 0%float
  /\ errorRate m = 0%float /\ networkRequests m = 0%float /\ failedRequests m = 0%float.

Lemma step_reachable_untouched (h : Hook) (e : Event) :
  PerformanceDashboard.reachable e = true ->
  untouched (metrics h) ->
  untouched (metrics (step NumberToString DEFAULT_THRESHOLDS h e)).
Proof.
  intros Hr Hu. destruct e; try discriminate; simpl.
  - unfold measureMemoryUsage. destruct heap; [|exact Hu].
    destruct (JS.gt _ _); exact Hu.
  - unfold measureFrameRate. destruct (JS.le _ _); [|exact Hu].
    destruct (JS.lt _ _); exact Hu.
  - unfold observeEntry. destruct (String.eqb _ _); [|exact Hu].
    destruct (JS.gt _ _); exact Hu.
  - repeat split.
  - exact Hu.
Qed.

Lemma run_reachable_untouched (es : list Event) (h : Hook) :
  forallb PerformanceDashboard.reachable es = true ->
  untouched (metrics h) ->
  untouched (metrics (run NumberToString DEFAULT_THRESHOLDS h es)).
Proof.
  revert h. induction es as [|e es IH]; intros h Hr Hu; simpl in *; [exact Hu|].
  apply andb_true_iff in Hr as [He Hes].
  apply IH; [exact Hes|]. now apply step_reachable_untouched.
Qed.

End DashboardInstance.

(** The dashboard's instance of the hook only ever receives memory samples,
    frame ticks, observer entries, resets and clear-alls.  In every state it
    can reach, the row and request counters are still 0: the processing
    progress card and the network card are never shown, no tip about
    requests or API keys is given, and the status is critical exactly when
    memory, render time and frame rate are all three in breach. *)
Theorem dashboard_never_shows_progress (NumberToString : float -> string)
  (started updated frameOrigin : float) (es : list Event) :
  forallb PerformanceDashboard.reachable es = true ->
  PerformanceDashboard.progressCardShown
    (metrics (run NumberToString DEFAULT_THRESHOLDS (initial started updated frameOrigin) es))
  = false
  /\ PerformanceDashboard.networkCardShown
       (metrics (run NumberToString DEFAULT_THRESHOLDS (initial started updated frameOrigin) es))
     = false
  /\ (forall tip,
        tip ∈ PerformanceDashboard.tips
                (metrics (run NumberToString DEFAULT_THRESHOLDS
                            (initial started updated frameOrigin) es)) ->
        tip = PerformanceDashboard.SmallerBatches
        \/ tip = PerformanceDashboard.VirtualScrolling)
  /\ (PerformanceDashboard.performanceStatus
        (metrics (run NumberToString DEFAULT_THRESHOLDS (initial started updated frameOrigin) es))
      = "critical"
      <-> issues DEFAULT_THRESHOLDS
            (metrics (run NumberToString DEFAULT_THRESHOLDS
                        (initial started updated frameOrigin) es))
          = ["memory"; "render"; "framerate"]).
Proof.
  intros Hr.
  assert (Hu : untouched
            (metrics (run NumberToString DEFAULT_THRESHOLDS
                        (initial started updated frameOrigin) es))).
  { apply run_reachable_untouched; [exact Hr | repeat split]. }
  set (m := metrics (run NumberToString DEFAULT_THRESHOLDS
                       (initial started updated frameOrigin) es)) in *.
  destruct Hu as (Ht & Hp & Hs & He & Hn & Hf).
  split; [|split; [|split]].
  - unfold PerformanceDashboard.progressCardShown. now rewrite Ht.
  - unfold PerformanceDashboard.networkCardShown. now rewrite Hn.
  - intros tip. unfold PerformanceDashboard.tips. rewrite Hs, He.
    change (JS.gt 0 0 && JS.lt 0 (minProcessingSpeed DEFAULT_THRESHOLDS)) with false.
    change (JS.gt 0 (maxErrorRate DEFAULT_THRESHOLDS)) with false.
    destruct (JS.gt (memoryUsage m) _), (JS.gt (renderTime m) _); simpl;
      rewrite ?elem_of_cons; intros H; intuition; try (now inversion H);
      match goal with H' : _ ∈ [] |- _ => inversion H' end.
  - unfold PerformanceDashboard.performanceStatus, getPerformanceStatus, issues.
    rewrite Hs, He.
    change (JS.gt 0 0 && JS.lt 0 (minProcessingSpeed DEFAULT_THRESHOLDS)) with false.
    change (JS.gt 0 (maxErrorRate DEFAULT_THRESHOLDS)) with false.
    destruct (JS.gt (memoryUsage m) _), (JS.gt (renderTime m) _),
      (JS.gt (frameRate m) 0 && _); simpl; split; intros H;
      try discriminate; reflexivity.
Qed.

Lemma dashboard_never_shows_progress_witness :
  PerformanceDashboard.progressCardShown
    (metrics (run Examples.NumberToString DEFAULT_THRESHOLDS (initial 0 0 0)
                [MemorySample (Some (600 * 1024 * 1024)%float) 2000;
                 ObserverEntry "measure" "render" 250 2100; FrameTick 2200;
                 Reset 3000 3000; ClearAllAlerts]))
  = false
  /\ PerformanceDashboard.networkCardShown
       (metrics (run Examples.NumberToString DEFAULT_THRESHOLDS (initial 0 0 0)
                   [MemorySample (Some (600 * 1024 * 1024)%float) 2000;
                    ObserverEntry "measure" "render" 250 2100; FrameTick 2200;
                    Reset 3000 3000; ClearAllAlerts]))
     = false.
Proof.
  destruct (dashboard_never_shows_progress Examples.NumberToString 0 0 0
              [MemorySample (Some (600 * 1024 * 1024)%float) 2000;
               ObserverEntry "measure" "render" 250 2100; FrameTick 2200;
               Reset 3000 3000; ClearAllAlerts]) as (H1 & H2 & _); [reflexivity|].
  split; [exact H1 | exact H2].
Defined.

(** * Row checkboxes, and alerts against the status *)

Local Set Warnings "-clear-no-such-hyp".

(** Checking a row's box adds its index to the selection and unchecking
    removes it; no other row is affected; doing either twice is as doing it
    once; boxes of different rows can be worked in any order; and
    unchecking after checking restores a selection that did not hold the
    row. *)
Theorem handleRowSelect_algebra (i j : Z) (checked checked' : bool) (prev : gset Z) :
  (i ∈ handleRowSelect i checked prev <-> checked = true)
  /\ (j <> i -> (j ∈ handleRowSelect i checked prev <-> j ∈ prev))
  /\ handleRowSelect i checked (handleRowSelect i checked prev)
     = handleRowSelect i checked prev
  /\ (j <> i ->
      handleRowSelect i checked (handleRowSelect j checked' prev)
      = handleRowSelect j checked' (handleRowSelect i checked prev))
  /\ (i ∉ prev -> handleRowSelect i false (handleRowSelect i true prev) = prev)
  /\ (i ∈ prev -> handleRowSelect i true (handleRowSelect i false prev) = prev).
Proof.
  unfold handleRowSelect.
  split; [|split; [|split; [|split; [|split]]]].
  - destruct checked; set_solver.
  - destruct checked; set_solver.
  - destruct checked; set_solver.
  - destruct checked, checked'; set_solver.
  - set_solver.
  - intros Hi. apply set_eq. intros x.
    destruct (decide (x = i)) as [->|]; set_solver.
Qed.

Lemma issues_memory (thresholds : PerformanceThresholds) (m : PerformanceMetrics) :
  "memory" ∈ issues thresholds m
  <-> JS.gt (memoryUsage m) (maxMemoryUsage thresholds) = true.
Proof.
  unfold issues.
  destruct (JS.gt (memoryUsage m) _), (JS.gt (renderTime m) _),
    (JS.gt (processingSpeed m) 0 && _), (JS.gt (errorRate m) _),
    (JS.gt (frameRate m) 0 && _); simpl;
    rewrite ?elem_of_cons, ?elem_of_nil; intuition discriminate.
Qed.

(** A memory sample stores the reading rounded to whole megabytes, but
    raises its alert on the reading before rounding, while the status looks
    at the stored value.  So an alert is raised exactly when the reading is
    above the limit, the status counts memory exactly when the rounded
    reading is, and a reading that rounds down to the limit (500.25MB
    against 500MB) leaves an alert that says 500MB against a threshold of
    500MB while the status stays good. *)
Theorem memory_alert_before_rounding (NumberToString : float -> string)
  (thresholds : PerformanceThresholds) (heap now : float) (h : Hook) :
  memoryUsage (metrics (measureMemoryUsage NumberToString thresholds (Some heap) now h))
  = Math_round (heap / 1024 / 1024)
  /\ (JS.gt (heap / 1024 / 1024) (maxMemoryUsage thresholds) = true ->
      memoryAlert NumberToString thresholds (heap / 1024 / 1024)
      ∈ alerts (measureMemoryUsage NumberToString thresholds (Some heap) now h))
  /\ (JS.gt (heap / 1024 / 1024) (maxMemoryUsage thresholds) = false ->
      alerts (measureMemoryUsage NumberToString thresholds (Some heap) now h) = alerts h)
  /\ ("memory" ∈ issues thresholds
                   (metrics (measureMemoryUsage NumberToString thresholds (Some heap) now h))
      <-> JS.gt (Math_round (heap / 1024 / 1024)) (maxMemoryUsage thresholds) = true)
  /\ alerts (measureMemoryUsage NumberToString DEFAULT_THRESHOLDS (Some 524550144%float) 2000
               (initial 0 0 0))
     = [("High memory usage: " ++ NumberToString 500%float ++ "MB (threshold: "
         ++ NumberToString 500%float ++ "MB)")%string]
  /\ getPerformanceStatus DEFAULT_THRESHOLDS
       (metrics (measureMemoryUsage NumberToString DEFAULT_THRESHOLDS
                   (Some 524550144%float) 2000 (initial 0 0 0)))
     = "good".
Proof.
  assert (Hm : metrics (measureMemoryUsage NumberToString thresholds (Some heap) now h)
               = withMemory (Math_round (heap / 1024 / 1024)) now (metrics h)).
  { unfold measureMemoryUsage. now destruct (JS.gt _ _). }
  split; [now rewrite Hm|]. split; [|split; [|split; [|split]]].
  - intros H. unfold measureMemoryUsage. rewrite H. simpl. apply addAlert_elem_of.
  - intros H. unfold measureMemoryUsage. now rewrite H.
  - rewrite issues_memory, Hm. reflexivity.
  - reflexivity.
  - reflexivity.
Qed.
